(** * ppt-generator-streamlit: a shallow embedding of [ppt_generator.py] and [app.py]

    The development follows the two source files.  [Py] holds the part of the
    Python runtime the code relies on (exceptions, [str] methods, the values
    [json.loads] produces, state passing with exceptions); [Pptx] the part of
    python-pptx the generator drives; [PPTGenerator] the class of
    [ppt_generator.py]; [App] the form of [app.py].  What lies outside the
    two files (the chat endpoint, [json.loads], the image host, the clock) is
    a record of answers, [PPTGenerator.env], over which every theorem
    quantifies.  [Main] holds the session handling of [main] in [app.py].
    [Text], [Templated], [Deck], [Samples] and [More] define the notions and
    inputs the statements use; the theorems come last. *)

From Stdlib Require Import ZArith List String Ascii Bool Lia DecimalString.
From Stdlib Require Import Floats.PrimFloat.
Import ListNotations.
Open Scope string_scope.

(* ================================================================= *)
(** ** Python runtime *)

Module Py.

(** *** Exceptions

    The classes are the subclasses of [Exception] that the two files can see:
    the handlers of the source all read [except Exception].  [APIError] stands
    for whatever the chat-completion client raises. *)

Inductive exn_class :=
| ValueError | TypeError | KeyError | IndexError | AttributeError
| JSONDecodeError | OSError | APIError.

Record exn := Exn { exn_cls : exn_class; exn_msg : string }.

Inductive result (A : Type) :=
| Ok (a : A)
| Raise (e : exn).
Arguments Ok {A} a.
Arguments Raise {A} e.

Definition rbind {A B} (r : result A) (k : A -> result B) : result B :=
  match r with
  | Ok a => k a
  | Raise e => Raise e
  end.

Declare Scope py_scope.
Delimit Scope py_scope with py.
Notation "x <- r ;; k" := (rbind r (fun x => k))
  (at level 61, r at next level, right associativity) : py_scope.
Notation "r ;;; k" := (rbind r (fun _ => k))
  (at level 61, right associativity) : py_scope.

(** *** [str]

    A [str] is a [string] whose characters are code points below 256. *)

Definition code (c : ascii) : nat := nat_of_ascii c.

(** [str.isspace] on one character: TAB..CR, FS..US, SPACE, NEL, NBSP. *)
Definition isspace (c : ascii) : bool :=
  (((9 <=? code c) && (code c <=? 13)) || ((28 <=? code c) && (code c <=? 32))
   || (code c =? 133) || (code c =? 160))%nat.

(** [str.lower] on one character: A..Z and the Latin-1 capitals. *)
Definition lower_char (c : ascii) : ascii :=
  if (((65 <=? code c) && (code c <=? 90))
      || ((192 <=? code c) && (code c <=? 222) && negb (code c =? 215)))%nat
  then ascii_of_nat (code c + 32) else c.

Fixpoint lower (s : string) : string :=
  match s with
  | EmptyString => EmptyString
  | String c s' => String (lower_char c) (lower s')
  end.

Fixpoint lstrip (s : string) : string :=
  match s with
  | EmptyString => EmptyString
  | String c s' => if isspace c then lstrip s' else s
  end.

Fixpoint rstrip (s : string) : string :=
  match s with
  | EmptyString => EmptyString
  | String c s' =>
      match rstrip s' with
      | EmptyString => if isspace c then EmptyString else String c EmptyString
      | r => String c r
      end
  end.

(** [s.strip()] *)
Definition strip (s : string) : string := lstrip (rstrip s).

(** [s.startswith(p)] *)
Fixpoint startswith (s p : string) {struct p} : bool :=
  match p, s with
  | EmptyString, _ => true
  | String _ _, EmptyString => false
  | String a p', String b s' => Ascii.eqb a b && startswith s' p'
  end.

Definition len (s : string) : Z := Z.of_nat (String.length s).

Fixpoint find_from (s sub : string) (i : Z) : Z :=
  if startswith s sub then i
  else match s with
       | EmptyString => (-1)%Z
       | String _ s' => find_from s' sub (i + 1)
       end.

(** [s.find(sub)]: the lowest index of [sub] in [s], or -1. *)
Definition find (s sub : string) : Z := find_from s sub 0.

Fixpoint rfind_from (s sub : string) (i : Z) : Z :=
  match s with
  | EmptyString => if startswith s sub then i else (-1)%Z
  | String _ s' =>
      let r := rfind_from s' sub (i + 1) in
      if (r =? -1)%Z then (if startswith s sub then i else (-1)%Z) else r
  end.

(** [s.rfind(sub)]: the highest index of [sub] in [s], or -1. *)
Definition rfind (s sub : string) : Z := rfind_from s sub 0.

(** [sub in s] *)
Definition contains (s sub : string) : bool := negb (find s sub =? -1)%Z.

Fixpoint take (n : nat) (s : string) : string :=
  match n, s with
  | S n', String c s' => String c (take n' s')
  | _, _ => EmptyString
  end.

Fixpoint drop (n : nat) (s : string) : string :=
  match n, s with
  | S n', String _ s' => drop n' s'
  | _, _ => s
  end.

(** A slice bound as Python normalises it: negative bounds count from the
    end, and every bound is clamped to [0, len]. *)
Definition bound (n i : Z) : Z :=
  if (i <? 0)%Z then Z.max (i + n) 0 else Z.min i n.

(** [s[a:b]] *)
Definition slice (s : string) (a b : Z) : string :=
  let a' := bound (len s) a in
  let b' := bound (len s) b in
  take (Z.to_nat (b' - a')) (drop (Z.to_nat a') s).

(** The pieces of [s] between the occurrences of a non-empty [sep], scanning
    from the left; every round consumes at least one character, so
    [S (length s)] rounds are enough. *)
Fixpoint split_rounds (n : nat) (s sep : string) : list string :=
  match n with
  | O => [s]
  | S n' =>
      let i := find s sep in
      if (i =? -1)%Z then [s]
      else take (Z.to_nat i) s
           :: split_rounds n' (drop (Z.to_nat i + String.length sep) s) sep
  end.

Definition pieces (s sep : string) : list string :=
  split_rounds (S (String.length s)) s sep.

(** [s.split(sep)] *)
Definition split (s sep : string) : result (list string) :=
  match sep with
  | EmptyString => Raise (Exn ValueError "empty separator")
  | _ => Ok (pieces s sep)
  end.

(** [sep.join(l)] *)
Fixpoint join (sep : string) (l : list string) : string :=
  match l with
  | [] => EmptyString
  | [x] => x
  | x :: l' => x ++ sep ++ join sep l'
  end.

(** [s.replace(old, new)] for a non-empty [old]; with an empty [old] Python
    puts [new] around every character. *)
Fixpoint around (new s : string) : string :=
  match s with
  | EmptyString => new
  | String c s' => new ++ String c (around new s')
  end.

Definition replace (s old new : string) : string :=
  match old with
  | EmptyString => around new s
  | _ => join new (pieces s old)
  end.

(** [l[i]] for [i >= 0]; negative indices count from the end. *)
Definition index {A} (l : list A) (i : Z) : result A :=
  let n := Z.of_nat (List.length l) in
  let j := if (i <? 0)%Z then (i + n)%Z else i in
  if (j <? 0)%Z then Raise (Exn IndexError "list index out of range")
  else match nth_error l (Z.to_nat j) with
       | Some a => Ok a
       | None => Raise (Exn IndexError "list index out of range")
       end.

(** [str(n)] for an [int] *)
Definition str_of_int (n : Z) : string := NilZero.string_of_int (Z.to_int n).

(** *** Values

    What [json.loads] can return, and what the fallback builds by hand: a
    [dict] keeps its items in insertion order, and a key is bound to the
    first item that carries it. *)

#[warnings="-register-all"]
Inductive value :=
| VNone
| VBool (b : bool)
| VInt (n : Z)
| VFloat (x : float)
| VStr (s : string)
| VList (l : list value)
| VDict (d : list (string * value)).

Definition dict := list (string * value).

Fixpoint lookup {A} (d : list (string * A)) (k : string) : option A :=
  match d with
  | [] => None
  | (k', v) :: d' => if String.eqb k' k then Some v else lookup d' k
  end.

(** The keys of a dict in order, each once. *)
Fixpoint keys {A} (d : list (string * A)) : list string :=
  match d with
  | [] => []
  | (k, _) :: d' => k :: filter (fun k' => negb (String.eqb k k')) (keys d')
  end.

Definition type_name (v : value) : string :=
  match v with
  | VNone => "NoneType"
  | VBool _ => "bool"
  | VInt _ => "int"
  | VFloat _ => "float"
  | VStr _ => "str"
  | VList _ => "list"
  | VDict _ => "dict"
  end.

(** [bool(v)] *)
Definition truthy (v : value) : bool :=
  match v with
  | VNone => false
  | VBool b => b
  | VInt n => negb (n =? 0)%Z
  | VFloat x => negb (PrimFloat.eqb x 0%float)
  | VStr s => negb (String.eqb s EmptyString)
  | VList l => match l with [] => false | _ => true end
  | VDict d => match d with [] => false | _ => true end
  end.

(** [v == s] for a str literal [s]: only an equal str compares equal. *)
Definition eq_str (v : value) (s : string) : bool :=
  match v with
  | VStr x => String.eqb x s
  | _ => false
  end.

(** [k in v] for a str [k] *)
Definition has (v : value) (k : string) : result bool :=
  match v with
  | VDict d => Ok (match lookup d k with Some _ => true | None => false end)
  | VList l => Ok (existsb (fun x => eq_str x k) l)
  | VStr s => Ok (contains s k)
  | _ => Raise (Exn TypeError
                  ("argument of type '" ++ type_name v ++ "' is not iterable"))
  end.

(** [repr(k)] of a str without quotes or escapes in it *)
Definition repr (k : string) : string := "'" ++ k ++ "'".

(** [v[k]] for a str [k] *)
Definition getitem (v : value) (k : string) : result value :=
  match v with
  | VDict d =>
      match lookup d k with
      | Some x => Ok x
      | None => Raise (Exn KeyError (repr k))
      end
  | VList _ => Raise (Exn TypeError "list indices must be integers or slices, not str")
  | VStr _ => Raise (Exn TypeError "string indices must be integers, not 'str'")
  | _ => Raise (Exn TypeError ("'" ++ type_name v ++ "' object is not subscriptable"))
  end.

(** [v.get(k, default)] *)
Definition get (v : value) (k : string) (default : value) : result value :=
  match v with
  | VDict d =>
      Ok (match lookup d k with Some x => x | None => default end)
  | _ => Raise (Exn AttributeError
                  ("'" ++ type_name v ++ "' object has no attribute 'get'"))
  end.

Fixpoint chars (s : string) : list value :=
  match s with
  | EmptyString => []
  | String c s' => VStr (String c EmptyString) :: chars s'
  end.

(** The items [for x in v] visits. *)
Definition iter (v : value) : result (list value) :=
  match v with
  | VList l => Ok l
  | VStr s => Ok (chars s)
  | VDict d => Ok (map VStr (keys d))
  | _ => Raise (Exn TypeError ("'" ++ type_name v ++ "' object is not iterable"))
  end.

(** [enumerate(l)] *)
Fixpoint enumerate_from {A} (i : Z) (l : list A) : list (Z * A) :=
  match l with
  | [] => []
  | x :: l' => (i, x) :: enumerate_from (i + 1) l'
  end.

Definition enumerate {A} (l : list A) : list (Z * A) := enumerate_from 0 l.

(** *** More of dicts and lists *)


Fixpoint range_from (a : Z) (n : nat) : list Z :=
  match n with
  | O => []
  | S n' => a :: range_from (a + 1) n'
  end.

(** [range(a, b)] *)
Definition range (a b : Z) : list Z := range_from a (Z.to_nat (b - a)).

(** [l[:b]] *)
Definition upto {A} (l : list A) (b : Z) : list A :=
  firstn (Z.to_nat (bound (Z.of_nat (List.length l)) b)) l.

(** [l[i] = x] for an [i] within [0, len(l)). *)
Fixpoint assign {A} (l : list A) (i : nat) (x : A) : list A :=
  match l, i with
  | [], _ => []
  | _ :: l', O => x :: l'
  | y :: l', S i' => y :: assign l' i' x
  end.

(** *** Effects

    A computation reads and changes a world and may raise; what it changed
    before raising stays changed. *)

Section Effects.

Variable world : Type.

Definition M (A : Type) : Type := world -> world * result A.

Definition ret {A} (a : A) : M A := fun w => (w, Ok a).

Definition raise {A} (e : exn) : M A := fun w => (w, Raise e).

Definition bind {A B} (m : M A) (k : A -> M B) : M B :=
  fun w =>
    match m w with
    | (w', Ok a) => k a w'
    | (w', Raise e) => (w', Raise e)
    end.

Definition lift {A} (r : result A) : M A := fun w => (w, r).

(** [try: m except Exception as e: h e] *)
Definition try {A} (m : M A) (h : exn -> M A) : M A :=
  fun w =>
    match m w with
    | (w', Ok a) => (w', Ok a)
    | (w', Raise e) => h e w'
    end.

(** [for x in l: body x] *)
Fixpoint for_each {A} (l : list A) (body : A -> M unit) : M unit :=
  match l with
  | [] => ret tt
  | x :: l' => bind (body x) (fun _ => for_each l' body)
  end.

End Effects.

Arguments ret {world A} a.
Arguments raise {world A} e.
Arguments bind {world A B} m k.
Arguments lift {world A} r.
Arguments try {world A} m h.
Arguments for_each {world A} l body.

Declare Scope io_scope.
Delimit Scope io_scope with io.
Notation "x <- m ;; k" := (bind m (fun x => k))
  (at level 61, m at next level, right associativity) : io_scope.
Notation "m ;;; k" := (bind m (fun _ => k))
  (at level 61, right associativity) : io_scope.

End Py.

(* ================================================================= *)
(** ** python-pptx, as far as the generator drives it *)

Module Pptx.
Import Py.

(** Lengths are English Metric Units.  [Inches] takes its argument in tenths
    of an inch, so that [Inches(7.5)] is [Inches 75]. *)
Definition Inches (tenths : Z) : Z := (tenths * 91440)%Z.
Definition Pt (points : Z) : Z := (points * 12700)%Z.

Record RGBColor := RGB { red : Z; green : Z; blue : Z }.

Inductive PP_ALIGN := LEFT | CENTER | RIGHT | JUSTIFY.

(** A paragraph with the run properties the generator sets on it. *)
Record paragraph := Paragraph {
  p_text : string;
  p_level : Z;
  p_size : option Z;
  p_bold : option bool;
  p_color : option RGBColor;
  p_alignment : option PP_ALIGN;
  p_space_after : option Z;
  p_space_before : option Z
}.

Definition empty_paragraph : paragraph :=
  Paragraph EmptyString 0 None None None None None None.

Definition set_p_text (t : string) (p : paragraph) : paragraph :=
  Paragraph t (p_level p) (p_size p) (p_bold p) (p_color p) (p_alignment p)
            (p_space_after p) (p_space_before p).
Definition set_p_level (l : Z) (p : paragraph) : paragraph :=
  Paragraph (p_text p) l (p_size p) (p_bold p) (p_color p) (p_alignment p)
            (p_space_after p) (p_space_before p).
Definition set_p_size (z : Z) (p : paragraph) : paragraph :=
  Paragraph (p_text p) (p_level p) (Some z) (p_bold p) (p_color p)
            (p_alignment p) (p_space_after p) (p_space_before p).
Definition set_p_bold (b : bool) (p : paragraph) : paragraph :=
  Paragraph (p_text p) (p_level p) (p_size p) (Some b) (p_color p)
            (p_alignment p) (p_space_after p) (p_space_before p).
Definition set_p_color (c : RGBColor) (p : paragraph) : paragraph :=
  Paragraph (p_text p) (p_level p) (p_size p) (p_bold p) (Some c)
            (p_alignment p) (p_space_after p) (p_space_before p).
Definition set_p_alignment (a : PP_ALIGN) (p : paragraph) : paragraph :=
  Paragraph (p_text p) (p_level p) (p_size p) (p_bold p) (p_color p) (Some a)
            (p_space_after p) (p_space_before p).
Definition set_p_space_after (z : Z) (p : paragraph) : paragraph :=
  Paragraph (p_text p) (p_level p) (p_size p) (p_bold p) (p_color p)
            (p_alignment p) (Some z) (p_space_before p).
Definition set_p_space_before (z : Z) (p : paragraph) : paragraph :=
  Paragraph (p_text p) (p_level p) (p_size p) (p_bold p) (p_color p)
            (p_alignment p) (p_space_after p) (Some z).

(** A placeholder shape: its box (inherited from the layout until set) and
    its text frame, which always holds at least one paragraph. *)
Record shape := Shape {
  sh_left : option Z;
  sh_top : option Z;
  sh_width : option Z;
  sh_height : option Z;
  sh_word_wrap : option bool;
  sh_paragraphs : list paragraph
}.

Definition empty_shape : shape :=
  Shape None None None None None [empty_paragraph].

Definition set_box (l t w h : Z) (s : shape) : shape :=
  Shape (Some l) (Some t) (Some w) (Some h) (sh_word_wrap s) (sh_paragraphs s).
Definition set_word_wrap (b : bool) (s : shape) : shape :=
  Shape (sh_left s) (sh_top s) (sh_width s) (sh_height s) (Some b)
        (sh_paragraphs s).
Definition set_paragraphs (ps : list paragraph) (s : shape) : shape :=
  Shape (sh_left s) (sh_top s) (sh_width s) (sh_height s) (sh_word_wrap s) ps.

Record picture := Picture {
  pic_file : string;
  pic_left : Z;
  pic_top : Z;
  pic_width : Z;
  pic_height : Z
}.

(** [background.fill]: inherited, or solid with a colour once one is set. *)
Inductive fill :=
| Inherited
| Solid (c : option RGBColor).

Record slide := Slide {
  sl_layout : nat;
  sl_fill : fill;
  sl_placeholders : list shape;
  sl_pictures : list picture
}.

Definition set_fill (f : fill) (s : slide) : slide :=
  Slide (sl_layout s) f (sl_placeholders s) (sl_pictures s).
Definition set_placeholders (ps : list shape) (s : slide) : slide :=
  Slide (sl_layout s) (sl_fill s) ps (sl_pictures s).
Definition set_pictures (ps : list picture) (s : slide) : slide :=
  Slide (sl_layout s) (sl_fill s) (sl_placeholders s) ps.

Record presentation := Presentation {
  slide_width : Z;
  slide_height : Z;
  slides : list slide
}.

(** The layouts of the default template, each with the number of
    placeholders a new slide takes from it: Title Slide, Title and Content,
    Section Header, Two Content, Comparison, Title Only, Blank, Content with
    Caption, Picture with Caption, Title and Vertical Text, Vertical Title
    and Text. *)
Definition slide_layouts : list nat := [2; 2; 2; 3; 5; 1; 0; 3; 3; 2; 2]%nat.

(** [Presentation()] *)
Definition default_presentation : presentation :=
  Presentation 9144000 6858000 [].

(** [l[k] = f(l[k])] *)
Fixpoint update {A} (k : nat) (f : A -> A) (l : list A) : list A :=
  match l, k with
  | [], _ => []
  | x :: l', O => f x :: l'
  | x :: l', S k' => x :: update k' f l'
  end.

(** *** The world of a call *)

(** [deck] is the presentation being built, [stdout] the lines printed,
    [files] the decks saved, by path, the last one first, and [temps] the
    temporary image files on disk, in the order they were created. *)
Record world := World {
  deck : presentation;
  stdout : list string;
  files : list (string * presentation);
  temps : list string
}.

Definition set_deck (d : presentation) (w : world) : world :=
  World d (stdout w) (files w) (temps w).

Definition set_slides (l : list slide) (w : world) : world :=
  set_deck (Presentation (slide_width (deck w)) (slide_height (deck w)) l) w.

Definition IO := M world.

(** [print(line)] *)
Definition print (line : string) : IO unit :=
  fun w => (World (deck w) (stdout w ++ [line])%list (files w) (temps w), Ok tt).

(** [presentation = Presentation()] *)
Definition new_presentation : IO unit :=
  fun w => (set_deck default_presentation w, Ok tt).

Definition set_slide_width (z : Z) : IO unit :=
  fun w => (set_deck (Presentation z (slide_height (deck w)) (slides (deck w))) w,
            Ok tt).

Definition set_slide_height (z : Z) : IO unit :=
  fun w => (set_deck (Presentation (slide_width (deck w)) z (slides (deck w))) w,
            Ok tt).

(** [presentation.slides.add_slide(layout)]: the new slide is the last one of
    the deck; the reference returned is its position. *)
Definition add_slide (layout : nat) (placeholders : nat) : IO nat :=
  fun w =>
    let k := List.length (slides (deck w)) in
    (set_slides (slides (deck w)
                 ++ [Slide layout Inherited (repeat empty_shape placeholders) []])%list
                w,
     Ok k).

(** A write through the reference [k]. *)
Definition on_slide (k : nat) (f : slide -> slide) : IO unit :=
  fun w => (set_slides (update k f (slides (deck w))) w, Ok tt).

(** A read through the reference [k]. *)
Definition read_slide {A} (k : nat) (f : slide -> A) (default : A) : IO A :=
  fun w => (w, Ok match nth_error (slides (deck w)) k with
                  | Some s => f s
                  | None => default
                  end).

Definition on_shape (k j : nat) (f : shape -> shape) : IO unit :=
  on_slide k (fun s => set_placeholders (update j f (sl_placeholders s)) s).

Definition on_paragraph (k j i : nat) (f : paragraph -> paragraph) : IO unit :=
  on_shape k j (fun sh => set_paragraphs (update i f (sh_paragraphs sh)) sh).

(** [len(slide.placeholders)] *)
Definition placeholder_count (k : nat) : IO nat :=
  read_slide k (fun s => List.length (sl_placeholders s)) O.

(** [shape.text = v]: the frame loses its paragraphs and, for a str, gets one
    new paragraph per line of the text; for anything else the
    [v.split] of the setter raises, the frame already emptied.
    [slide.shapes.title] is the first placeholder, and [None] on a slide
    without placeholders. *)
Definition set_shape_text (k j : nat) (v : value) : IO unit :=
  (n <- placeholder_count k ;;
   if (j <? n)%nat then
     match v with
     | VStr t =>
         on_shape k j
           (set_paragraphs
              (map (fun line => set_p_text line empty_paragraph)
                   (pieces t (String "010"%char EmptyString))))
     | _ =>
         on_shape k j (set_paragraphs []) ;;;
         raise (Exn AttributeError
                  ("'" ++ type_name v ++ "' object has no attribute 'split'"))
     end
   else raise (Exn AttributeError "'NoneType' object has no attribute 'text'"))%io.

(** The text of a paragraph as it reads back after [p.text = t]: a line feed
    in [t] has become a line break, which reads as a vertical tab. *)
Fixpoint line_breaks (t : string) : string :=
  match t with
  | EmptyString => EmptyString
  | String c t' =>
      String (if Ascii.eqb c "010"%char then "011"%char else c) (line_breaks t')
  end.

(** [p.text = v]: the paragraph loses its text and, for a str, gets the new
    one; for anything else the [re.split] of the setter raises, the
    paragraph already emptied. *)
Definition set_paragraph_text (k j i : nat) (v : value) : IO unit :=
  match v with
  | VStr t => on_paragraph k j i (set_p_text (line_breaks t))
  | _ =>
      (on_paragraph k j i (set_p_text EmptyString) ;;;
       raise (Exn TypeError
                ("expected string or bytes-like object, got '"
                 ++ type_name v ++ "'")))%io
  end.

(** [text_frame.clear()] *)
Definition clear (k j : nat) : IO unit :=
  on_shape k j (set_paragraphs [empty_paragraph]).

(** [text_frame.add_paragraph()] *)
Definition add_paragraph (k j : nat) : IO nat :=
  (i <- read_slide k (fun s => match nth_error (sl_placeholders s) j with
                               | Some sh => List.length (sh_paragraphs sh)
                               | None => O
                               end) O ;;
   on_shape k j (fun sh => set_paragraphs (sh_paragraphs sh ++ [empty_paragraph])%list sh) ;;;
   ret i)%io.

(** [slide.shapes.add_picture(path, left, top, width, height)] *)
Definition add_picture (k : nat) (p : picture) : IO unit :=
  on_slide k (fun s => set_pictures (sl_pictures s ++ [p])%list s).

(** [presentation.save(path)], where [opened] is what opening [path] for
    writing answers: the deck is written, or the exception is raised and
    nothing is written. *)
Definition save (opened : result unit) (path : string) : IO unit :=
  match opened with
  | Ok _ =>
      fun w => (World (deck w) (stdout w) ((path, deck w) :: files w) (temps w),
                Ok tt)
  | Raise e => raise e
  end.

(** A temporary file is created under [name]. *)
Definition create_temp (name : string) : IO unit :=
  fun w => (World (deck w) (stdout w) (files w) (temps w ++ [name])%list, Ok tt).

(** The list of temporary files without the last one created under [name]:
    [NamedTemporaryFile] hands out a name once, so an entry is a file. *)
Fixpoint unlinked (name : string) (l : list string) : list string :=
  match l with
  | [] => []
  | x :: l' =>
      if String.eqb x name && negb (existsb (String.eqb name) l') then l'
      else x :: unlinked name l'
  end.

(** [os.unlink(name)] went through. *)
Definition delete_temp (name : string) : IO unit :=
  fun w => (World (deck w) (stdout w) (files w) (unlinked name (temps w)), Ok tt).

(** The presentation last saved under [path]. *)
Fixpoint saved (fs : list (string * presentation)) (path : string)
  : option presentation :=
  match fs with
  | [] => None
  | (p, d) :: fs' => if String.eqb p path then Some d else saved fs' path
  end.

End Pptx.

(* ================================================================= *)
(** ** ppt_generator.py *)

Module PPTGenerator.
Import Py Pptx.

(** What the surroundings answer.  [chat api_key model topic names] is the
    value of [response.choices[0].message.content] for the request that lines
    20-87 build and send, or the exception raised on the way; [json_loads] is
    [json.loads]; [requests_get] gives the status code of a GET;
    [temp_name] the name under which [NamedTemporaryFile] creates the file
    for a slide index, or the exception it raises; [temp_write] what writing
    the image to that file and closing it do; [read_image] what
    [add_picture] does when it opens the file, and [os_unlink] what deleting
    it does; [time_time] is [int(time.time())]; [save_file] what opening the
    path of the deck for writing does. *)
Record env := Env {
  chat : string -> string -> string -> list string -> result (option string);
  json_loads : string -> result value;
  requests_get : string -> result Z;
  temp_name : Z -> result string;
  temp_write : string -> result unit;
  read_image : string -> result unit;
  os_unlink : string -> result unit;
  time_time : Z;
  save_file : string -> result unit
}.

(** [PPTGenerator(api_key, model_name)] *)
Record generator := Generator {
  api_key : string;
  model_name : string
}.

Section Methods.

Variable E : env.

(** Lines 92-100: the text handed to [json.loads]. *)
Definition clean_json (content : string) : result string :=
  (content <-
     (if startswith content "```json" then
        a <- split content "```json" ;;
        b <- index a 1 ;;
        c <- split b "```" ;;
        d <- index c 0 ;;
        Ok (strip d)
      else if startswith content "```" then
        a <- split content "```" ;;
        b <- index a 1 ;;
        c <- split b "```" ;;
        d <- index c 0 ;;
        Ok (strip d)
      else Ok content) ;;
   let start_brace := find content "{" in
   let end_brace := rfind content "}" in
   Ok (if negb (start_brace =? -1)%Z && negb (end_brace =? -1)%Z
       then slice content start_brace (end_brace + 1)
       else content))%py.

(** Lines 73-107: the body of the [try]. *)
Definition request_content (self : generator) (topic : string)
           (content_names : list string) : result value :=
  (response <- chat E (api_key self) (model_name self) topic content_names ;;
   content <- match response with
              | Some s => Ok (strip s)
              | None => Raise (Exn AttributeError
                                 "'NoneType' object has no attribute 'strip'")
              end ;;
   content <- clean_json content ;;
   parsed_content <- json_loads E content ;;
   present <- has parsed_content "slides" ;;
   invalid <- (if negb present then Ok true
               else v <- getitem parsed_content "slides" ;;
                    Ok (negb (truthy v))) ;;
   if (invalid : bool) then Raise (Exn ValueError "Invalid JSON structure")
   else Ok parsed_content)%py.

Definition section_content (topic content_name : string) : list value :=
  [ VStr ("Detailed analysis of " ++ content_name ++ ": " ++ topic
          ++ " involves multiple components including strategic planning and execution frameworks");
    VStr ("Key features: Core elements include " ++ lower content_name
          ++ " methodology, implementation techniques, and performance metrics");
    VStr "Practical example: Case study from Fortune 500 company showing 35% improvement using these methods";
    VStr ("Best practices: Industry-standard approaches for " ++ lower content_name
          ++ " with measurable results");
    VStr "Current trends: 2024 data shows 42% adoption rate in top organizations with positive ROI" ].

(** Lines 124-136: the loop, with [slides] as it stands on entry. *)
Fixpoint append_sections (topic : string) (colors : list string)
         (l : list (Z * string)) (slides : list value) : result (list value) :=
  match l with
  | [] => Ok slides
  | (i, content_name) :: l' =>
      (color <- index colors (i mod Z.of_nat (List.length colors)) ;;
       append_sections topic colors l'
         (slides ++ [VDict [ ("slide_type", VStr "section");
                             ("title", VStr content_name);
                             ("content", VList (section_content topic content_name));
                             ("background_color", VStr color) ]])%list)%py
  end.

Definition _create_fallback_content (self : generator) (topic : string)
           (content_names : list string) : result value :=
  (let slides := [VDict [ ("slide_type", VStr "title");
                          ("title", VStr topic);
                          ("subtitle", VStr "Comprehensive Professional Presentation");
                          ("background_color", VStr "blue") ]] in
   let colors := ["white"; "light_blue"; "white"; "gradient"] in
   slides <- append_sections topic colors (enumerate content_names) slides ;;
   let slides :=
     (slides ++ [VDict [ ("slide_type", VStr "summary");
                         ("title", VStr "Conclusion & Recommendations");
                         ("content", VList
                            [ VStr "Comprehensive review of all key concepts with supporting data";
                              VStr "Actionable 6-month implementation plan with milestones";
                              VStr "Strategic roadmap for long-term success and scalability";
                              VStr "Resource allocation and team requirements";
                              VStr "Q&A and next steps for immediate action" ]);
                         ("background_color", VStr "blue") ]])%list in
   Ok (VDict [("title", VStr topic); ("slides", VList slides)]))%py.

Definition generate_presentation_content (self : generator) (topic : string)
           (content_names : list string) : IO value :=
  try (lift (request_content self topic content_names))
      (fun e =>
         print ("Error generating content: " ++ exn_msg e) ;;;
         lift (_create_fallback_content self topic content_names))%io.

(** The bare [except:] of line 164 swallows every failure. *)
Definition download_image (self : generator) (slide_index : Z)
  : IO (option string) :=
  let url := "https://source.unsplash.com/600x400/?" ++ str_of_int slide_index
             ++ ",business,tech,meeting" in
  try (status_code <- lift (requests_get E url) ;;
       if (status_code =? 200)%Z then
         temp_file <- lift (temp_name E slide_index) ;;
         create_temp temp_file ;;;
         lift (temp_write E temp_file) ;;;
         ret (Some temp_file)
       else ret None)%io
      (fun _ => ret None).

Definition get_background_color (self : generator) (color_name : value)
  : result RGBColor :=
  let colors := [ ("blue", RGB 0 84 147);
                  ("light_blue", RGB 220 240 255);
                  ("white", RGB 255 255 255);
                  ("dark", RGB 34 40 49);
                  ("gradient", RGB 240 248 255) ] in
  (default <- match lookup colors "white" with
              | Some c => Ok c
              | None => Raise (Exn KeyError (repr "white"))
              end ;;
   match color_name with
   | VStr s => Ok (match lookup colors s with Some c => c | None => default end)
   | VList _ | VDict _ =>
       Raise (Exn TypeError ("unhashable type: '" ++ type_name color_name ++ "'"))
   | _ => Ok default
   end)%py.

(** Lines 195-199, 222-226 and 276-280. *)
Definition paint_background (self : generator) (slide : nat)
           (slide_data : value) (default : string) : IO unit :=
  (on_slide slide (set_fill (Solid None)) ;;;
   name <- lift (get slide_data "background_color" (VStr default)) ;;
   rgb <- lift (get_background_color self name) ;;
   on_slide slide (set_fill (Solid (Some rgb))))%io.

Definition _create_title_slide (self : generator) (slide_data : value)
  : IO unit :=
  (slide_layout <- lift (index slide_layouts 0) ;;
   slide <- add_slide 0 slide_layout ;;
   paint_background self slide slide_data "blue" ;;;
   text <- lift (getitem slide_data "title") ;;
   set_shape_text slide 0 text ;;;
   on_paragraph slide 0 0 (set_p_size (Pt 44)) ;;;
   on_paragraph slide 0 0 (set_p_bold true) ;;;
   on_paragraph slide 0 0 (set_p_color (RGB 255 255 255)) ;;;
   on_paragraph slide 0 0 (set_p_alignment CENTER) ;;;
   n <- placeholder_count slide ;;
   if (1 <? n)%nat then
     text <- lift (get slide_data "subtitle" (VStr EmptyString)) ;;
     set_shape_text slide 1 text ;;;
     on_paragraph slide 1 0 (set_p_size (Pt 24)) ;;;
     on_paragraph slide 1 0 (set_p_color (RGB 255 255 255)) ;;;
     on_paragraph slide 1 0 (set_p_alignment CENTER)
   else ret tt)%io.

(** Lines 249-256: one round of the bullet loop. *)
Definition content_bullet (slide : nat) (item : Z * value) : IO unit :=
  (let '(i, bullet_point) := item in
   p <- (if (i =? 0)%Z then ret O else add_paragraph slide 1) ;;
   set_paragraph_text slide 1 p bullet_point ;;;
   on_paragraph slide 1 p (set_p_level 0) ;;;
   on_paragraph slide 1 p (set_p_size (Pt 18)) ;;;
   on_paragraph slide 1 p (set_p_color (RGB 51 51 51)) ;;;
   on_paragraph slide 1 p (set_p_space_after (Pt 12)) ;;;
   on_paragraph slide 1 p (set_p_space_before (Pt 4)))%io.

(** Lines 258-269: the picture of a content slide. *)
Definition place_picture (self : generator) (slide : nat) (slide_index : Z)
  : IO unit :=
  (image_path <- download_image self slide_index ;;
   match image_path with
   | Some image_path =>
       if negb (String.eqb image_path EmptyString) then
         try (lift (read_image E image_path) ;;;
              add_picture slide (Picture image_path (Inches 70) (Inches 20)
                                         (Inches 25) (Inches 20)) ;;;
              lift (os_unlink E image_path) ;;;
              delete_temp image_path)
             (fun e => print ("Image error: " ++ exn_msg e))
       else ret tt
   | None => ret tt
   end)%io.

Definition _create_content_slide (self : generator) (slide_data : value)
           (slide_index : Z) : IO unit :=
  (slide_layout <- lift (index slide_layouts 1) ;;
   slide <- add_slide 1 slide_layout ;;
   paint_background self slide slide_data "white" ;;;
   text <- lift (getitem slide_data "title") ;;
   set_shape_text slide 0 text ;;;
   on_paragraph slide 0 0 (set_p_size (Pt 32)) ;;;
   on_paragraph slide 0 0 (set_p_bold true) ;;;
   on_paragraph slide 0 0 (set_p_color (RGB 0 0 0)) ;;;
   n <- placeholder_count slide ;;
   (if (1 <? n)%nat then
      on_shape slide 1 (set_box (Inches 5) (Inches 18) (Inches 60) (Inches 45)) ;;;
      clear slide 1 ;;;
      on_shape slide 1 (set_word_wrap true) ;;;
      content <- lift (get slide_data "content" (VList [])) ;;
      bullets <- lift (iter content) ;;
      for_each (enumerate bullets) (content_bullet slide)
    else ret tt) ;;;
   place_picture self slide slide_index)%io.

(** Lines 301-308: one round of the bullet loop. *)
Definition summary_bullet (slide : nat) (item : Z * value) : IO unit :=
  (let '(i, bullet_point) := item in
   p <- (if (i =? 0)%Z then ret O else add_paragraph slide 1) ;;
   set_paragraph_text slide 1 p bullet_point ;;;
   on_paragraph slide 1 p (set_p_level 0) ;;;
   on_paragraph slide 1 p (set_p_size (Pt 20)) ;;;
   on_paragraph slide 1 p (set_p_bold (i =? 0)%Z) ;;;
   on_paragraph slide 1 p
     (set_p_color (if (i =? 0)%Z then RGB 0 84 147 else RGB 51 51 51)) ;;;
   on_paragraph slide 1 p (set_p_space_after (Pt 14)))%io.

Definition _create_summary_slide (self : generator) (slide_data : value)
  : IO unit :=
  (slide_layout <- lift (index slide_layouts 1) ;;
   slide <- add_slide 1 slide_layout ;;
   paint_background self slide slide_data "light_blue" ;;;
   text <- lift (getitem slide_data "title") ;;
   set_shape_text slide 0 text ;;;
   on_paragraph slide 0 0 (set_p_size (Pt 32)) ;;;
   on_paragraph slide 0 0 (set_p_bold true) ;;;
   on_paragraph slide 0 0 (set_p_color (RGB 0 0 0)) ;;;
   n <- placeholder_count slide ;;
   if (1 <? n)%nat then
     on_shape slide 1 (set_box (Inches 10) (Inches 18) (Inches 80) (Inches 45)) ;;;
     clear slide 1 ;;;
     content <- lift (get slide_data "content" (VList [])) ;;
     bullets <- lift (iter content) ;;
     for_each (enumerate bullets) (summary_bullet slide)
   else ret tt)%io.

Definition create_slide (self : generator) (slide_data : value)
           (slide_index : Z) : IO unit :=
  (slide_type <- lift (get slide_data "slide_type" (VStr "section")) ;;
   if eq_str slide_type "title" then _create_title_slide self slide_data
   else if eq_str slide_type "summary" then _create_summary_slide self slide_data
   else _create_content_slide self slide_data slide_index)%io.

(** Lines 318-321: one round of the slide loop. *)
Definition render (self : generator) (item : Z * value) : IO unit :=
  let '(i, slide_data) := item in
  try (create_slide self slide_data i)
      (fun e => print ("Error creating slide " ++ str_of_int (i + 1) ++ ": "
                       ++ exn_msg e)).

Definition create_powerpoint (self : generator) (presentation_data : value)
           (output_path : string) : IO unit :=
  (new_presentation ;;;
   set_slide_width (Inches 100) ;;;
   set_slide_height (Inches 75) ;;;
   slides <- lift (getitem presentation_data "slides") ;;
   items <- lift (iter slides) ;;
   for_each (enumerate items) (render self) ;;;
   save (save_file E output_path) output_path)%io.

Definition create_presentation (self : generator) (topic : string)
           (content_names : list string) (output_file : option string)
  : IO string :=
  (presentation_data <- generate_presentation_content self topic content_names ;;
   let output_file :=
     match output_file with
     | Some f =>
         if negb (String.eqb f EmptyString) then f
         else "professional_" ++ replace topic " " "_" ++ "_"
              ++ str_of_int (time_time E) ++ ".pptx"
     | None => "professional_" ++ replace topic " " "_" ++ "_"
               ++ str_of_int (time_time E) ++ ".pptx"
     end in
   create_powerpoint self presentation_data output_file ;;;
   ret output_file)%io.

End Methods.

End PPTGenerator.

(* ================================================================= *)
(** ** app.py *)

Module App.
Import Py Pptx PPTGenerator.

(** [st.session_state] once [initialize_session_state] has run. *)
Record session := Session {
  presentation_generated : bool;
  content_sections : list string;
  generating : bool;
  generated_file_path : option string
}.

Definition initial_session : session :=
  Session false
          ["Overview"; "Key Concepts"; "Implementation"; "Case Studies"; "Conclusion"]
          false None.

(** The session, the world of the generator, and the messages [st.error]
    has shown. *)
Record app := App {
  state : session;
  outside : world;
  errors : list string
}.

Definition set_generating (b : bool) (s : session) : session :=
  Session (presentation_generated s) (content_sections s) b (generated_file_path s).

Section Generation.

Variable E : env.
(** [datetime.now().strftime("%Y%m%d_%H%M%S")] *)
Variable timestamp : string.

Definition generate_presentation (topic : string) (content_sections : list string)
           (api_key model_name : string) (a : app) : app * option string :=
  let s := set_generating true (state a) in
  let generator := Generator api_key model_name in
  let output_filename :=
    "professional_" ++ replace topic " " "_" ++ "_" ++ timestamp ++ ".pptx" in
  match create_presentation E generator topic content_sections
          (Some output_filename) (outside a) with
  | (w, Ok output_path) =>
      (App (Session true (App.content_sections s) false (Some output_path))
           w (errors a),
       Some output_path)
  | (w, Raise e) =>
      (App (set_generating false s) w
           (errors a ++ [("Error generating presentation: " ++ exn_msg e)%string])%list,
       None)
  end.

End Generation.

(** [a and b] *)
Definition and_ (a b : value) : value := if truthy a then b else a.

(** Lines 143-145. *)
Definition is_valid (topic api_key : string) (content_sections : list string)
  : value :=
  and_ (and_ (and_ (and_ (VStr topic)
                         (VBool (3 <=? len (strip topic))%Z))
                   (VStr api_key))
             (VBool (10 <=? len (strip api_key))%Z))
       (VBool (forallb (fun section => truthy (VStr (strip section)))
                       content_sections)).

(** Line 152: [disabled=not is_valid or st.session_state.generating]. *)
Definition submit_disabled (topic api_key : string)
           (content_sections : list string) (s : session) : bool :=
  negb (truthy (is_valid topic api_key content_sections)) || generating s.

(** Line 172: the number shown as Total Slides. *)
Definition total_slides (content_sections : list string) : Z :=
  Z.of_nat (List.length content_sections) + 2.

End App.

(* ================================================================= *)
(** ** app.py: the session around the form *)

Module Main.
Import Py Pptx PPTGenerator App.



(** Lines 121-126: the stored titles brought to the length the slider
    shows. *)
Definition adjust_sections (content_sections : list string) (num_sections : Z)
  : list string :=
  let n := Z.of_nat (List.length content_sections) in
  if negb (n =? num_sections)%Z then
    if (n <? num_sections)%Z then
      fold_left (fun stored i =>
                   (stored ++ [("Section " ++ str_of_int (i + 1))%string])%list)
                (range n num_sections) content_sections
    else upto content_sections num_sections
  else content_sections.

(** Lines 131-140, one round: [text_input i value] is what the i-th input
    holds when it is offered [value].  The pair is the stored titles and
    the titles collected so far. *)
Definition section_input (text_input : Z -> string -> string)
           (lists : list string * list string) (i : Z)
  : list string * list string :=
  let '(stored, content_sections) := lists in
  let inside := (i <? Z.of_nat (List.length stored))%Z in
  let section :=
    text_input i (if inside then nth (Z.to_nat i) stored EmptyString
                  else EmptyString) in
  (if inside then assign stored (Z.to_nat i) section else stored,
   (content_sections ++ [section])%list).

(** Lines 128-140. *)
Definition section_inputs (text_input : Z -> string -> string)
           (stored : list string) (num_sections : Z)
  : list string * list string :=
  fold_left (section_input text_input) (range 0 num_sections) (stored, []).

(** Lines 118-140: the session after the section inputs were drawn, and the
    titles the rest of [main] works with. *)
Definition draw_sections (text_input : Z -> string -> string)
           (num_sections : Z) (s : session) : session * list string :=
  let stored := adjust_sections (content_sections s) num_sections in
  let '(stored, collected) := section_inputs text_input stored num_sections in
  (Session (presentation_generated s) stored (generating s)
           (generated_file_path s),
   collected).

(** Lines 161 and 165: the file the download section offers, if it shows a
    button at all.  [os.path.exists] sees the decks that were saved. *)
Definition download_offered (a : app) : option string :=
  if presentation_generated (state a) then
    match generated_file_path (state a) with
    | Some path =>
        if negb (String.eqb path EmptyString) then
          match saved (files (outside a)) path with
          | Some _ => Some path
          | None => None
          end
        else None
    | None => None
    end
  else None.

(** Lines 183-184: the Create New Presentation button. *)
Definition create_new (a : app) : app :=
  App (Session false (content_sections (state a)) (generating (state a)) None)
      (outside a) (errors a).

End Main.

(* ================================================================= *)
(** ** Notions the statements use *)

(** *** Text of a reply *)

Module Text.
Import Py PPTGenerator.

(** Every character of [s] is white space. *)
Fixpoint blank (s : string) : bool :=
  match s with
  | EmptyString => true
  | String c s' => isspace c && blank s'
  end.

(** The character [c] does not occur in [s]. *)
Fixpoint lacks (c : ascii) (s : string) : bool :=
  match s with
  | EmptyString => true
  | String x s' => negb (Ascii.eqb c x) && lacks c s'
  end.


(** In [a ++ t], no occurrence of [sub] starts inside [a]. *)
Fixpoint no_start (sub a t : string) : bool :=
  match a with
  | EmptyString => true
  | String c a' => negb (startswith (a ++ t) sub) && no_start sub a' t
  end.

(** The text of a JSON object: a brace, the members, a brace. *)
Definition object_text (members : string) : string := "{" ++ members ++ "}".

(** What reaches [json.loads] for a reply [text]: the strip of line 89, then
    lines 92-100. *)
Definition extraction (text : string) : result string := clean_json (strip text).

(** The payload inside a code fence, labelled or not, with white space around
    the payload and around the fence. *)
Inductive fenced (payload : string) : string -> Prop :=
| labeled_fence (o1 pre post o2 : string) :
    blank o1 = true -> blank pre = true -> blank post = true -> blank o2 = true ->
    fenced payload (o1 ++ "```json" ++ pre ++ payload ++ post ++ "```" ++ o2)
| unlabeled_fence (o1 pre post o2 : string) :
    blank o1 = true -> blank pre = true -> blank post = true -> blank o2 = true ->
    fenced payload (o1 ++ "```" ++ pre ++ payload ++ post ++ "```" ++ o2).

(** The payload between prose that lies outside its braces: no opening brace
    before it, no closing brace after it. *)
Inductive in_prose (payload : string) : string -> Prop :=
| prose_around (lead trail : string) :
    contains lead "{" = false -> contains trail "}" = false ->
    in_prose payload (lead ++ payload ++ trail).

(** The first piece of [s.split(sep)]: [s] up to its first [sep], or all of
    [s] when it has none. *)
Definition upto_first (s sep : string) : string :=
  if (find s sep =? -1)%Z then s else take (Z.to_nat (find s sep)) s.

(** What follows the text inside a fence: nothing, when the fence is never
    closed, or the closing marker and whatever comes after it. *)
Definition closes (rest : string) : bool :=
  match rest with
  | EmptyString => true
  | _ => startswith rest "```"
  end.

(** The ways a stripped reply holds the payload so that lines 92-100 find
    it.  The reply opens with a fence marker, labelled or not; what follows,
    up to the next marker or to the end, is the payload between text that
    has no opening brace before it and no closing brace after it, and no
    marker begins in there.  Or the reply does not open with a fence marker,
    and is the payload between text that has no opening brace before it and
    no closing brace after it. *)
Inductive wrapped (payload : string) : string -> Prop :=
| in_labeled_fence (lead trail rest : string) :
    lacks "{" lead = true -> lacks "}" trail = true ->
    no_start "```" (lead ++ payload ++ trail) rest = true ->
    closes rest = true ->
    wrapped payload ("```json" ++ lead ++ payload ++ trail ++ rest)
| in_unlabeled_fence (lead trail rest : string) :
    lacks "{" lead = true -> lacks "}" trail = true ->
    no_start "```" (lead ++ payload ++ trail) rest = true ->
    closes rest = true ->
    wrapped payload ("```" ++ lead ++ payload ++ trail ++ rest)
| in_bare_prose (lead trail : string) :
    lacks "{" lead = true -> lacks "}" trail = true ->
    startswith (lead ++ payload ++ trail) "```" = false ->
    wrapped payload (lead ++ payload ++ trail).

End Text.

(** *** The templated deck *)

Module Templated.
Import Py PPTGenerator.

Definition colors : list string := ["white"; "light_blue"; "white"; "gradient"].

(** The descriptors of the fallback, written without the loop. *)
Definition title_slide (topic : string) : value :=
  VDict [ ("slide_type", VStr "title");
          ("title", VStr topic);
          ("subtitle", VStr "Comprehensive Professional Presentation");
          ("background_color", VStr "blue") ].

Definition section_slide (topic : string) (item : Z * string) : value :=
  VDict [ ("slide_type", VStr "section");
          ("title", VStr (snd item));
          ("content", VList (section_content topic (snd item)));
          ("background_color",
           VStr (nth (Z.to_nat (fst item mod 4)) colors "white")) ].

Definition summary_slide : value :=
  VDict [ ("slide_type", VStr "summary");
          ("title", VStr "Conclusion & Recommendations");
          ("content", VList
             [ VStr "Comprehensive review of all key concepts with supporting data";
               VStr "Actionable 6-month implementation plan with milestones";
               VStr "Strategic roadmap for long-term success and scalability";
               VStr "Resource allocation and team requirements";
               VStr "Q&A and next steps for immediate action" ]);
          ("background_color", VStr "blue") ].

Definition fallback_slides (topic : string) (names : list string) : list value :=
  (title_slide topic :: map (section_slide topic) (enumerate names)
   ++ [summary_slide])%list.

(** A request the form lets through: a topic of three characters or more and
    three to ten section names, none blank. *)
Definition valid_request (topic : string) (names : list string) : bool :=
  (3 <=? len topic)%Z
  && (3 <=? List.length names)%nat && (List.length names <=? 10)%nat
  && forallb (fun name => negb (String.eqb (strip name) "")) names.

(** The parsed reply is an object whose [slides] entry is there and not empty. *)
Definition nonempty_slides (v : value) : bool :=
  match v with
  | VDict d => match lookup d "slides" with Some x => truthy x | None => false end
  | _ => false
  end.

(** The reply [text] as parsed: extraction, then [json.loads]. *)
Definition parsed (E : env) (text : string) : result value :=
  (content <- clean_json (strip text) ;; json_loads E content)%py.

(** The ways the request of a generator can fail: the call raises, the reply
    carries no text, the text does not parse, or what it parses to has no
    non-empty [slides]. *)
Inductive failed (E : env) (self : generator) (topic : string)
          (names : list string) : Prop :=
| call_raises (e : exn) :
    chat E (api_key self) (model_name self) topic names = Raise e ->
    failed E self topic names
| no_content :
    chat E (api_key self) (model_name self) topic names = Ok None ->
    failed E self topic names
| parse_fails (text : string) (e : exn) :
    chat E (api_key self) (model_name self) topic names = Ok (Some text) ->
    parsed E text = Raise e ->
    failed E self topic names
| slides_missing (text : string) (v : value) :
    chat E (api_key self) (model_name self) topic names = Ok (Some text) ->
    parsed E text = Ok v ->
    nonempty_slides v = false ->
    failed E self topic names.

End Templated.

(** *** Decks *)

Module Deck.
Import Py Pptx PPTGenerator.

(** The world [w] with [l] for the slides of its deck and [out] printed after
    what was printed. *)
Definition put (w : world) (l : list slide) (out : list string) : world :=
  World (Presentation (slide_width (deck w)) (slide_height (deck w)) l)
        (stdout w ++ out)%list (files w) (temps w).

(** The world [w] with the temporary files [left] created after those that
    were there. *)
Definition leave (w : world) (left : list string) : world :=
  World (deck w) (stdout w) (files w) (temps w ++ left)%list.

(** On a deck whose last slide [s] is the one [k] refers to, [m] leaves [s']
    in its place, prints [out], leaves the temporary files [left] behind,
    ends in [r], and touches nothing else. *)
Definition steps {A} (k : nat) (m : IO A) (s s' : slide) (out left : list string)
           (r : result A) : Prop :=
  forall w L, slides (deck w) = (L ++ [s])%list -> List.length L = k ->
              m w = (leave (put w (L ++ [s'])%list out) left, r).

(** Work through a reference to the last slide stays on that slide, and is
    the same whatever the reference and the slides before it. *)
Definition local {A} (m : nat -> IO A) : Prop :=
  forall s, exists s' out left r, forall k, steps k (m k) s s' out left r.

(** Whatever the world, [m] adds the same [n] slides at the end of the deck,
    prints the same lines, leaves the same temporary files behind and ends
    the same way. *)
Definition appends {A} (n : nat) (m : IO A) : Prop :=
  exists new out left r, List.length new = n /\
    forall w, m w = (leave (put w (slides (deck w) ++ new)%list out) left, r).

(** Nothing rendered, printed or saved yet. *)
Definition fresh : world := World default_presentation [] [] [].

(** A descriptor rendered on its own, into an empty deck: the slides it
    leaves there, the lines its round of the loop prints, and further down
    the temporary files it leaves on disk. *)
Definition alone (E : env) (self : generator) (item : Z * value)
  : world * result unit :=
  create_slide E self (snd item) (fst item) fresh.

Definition slides_of (E : env) (self : generator) (item : Z * value)
  : list slide :=
  slides (deck (fst (alone E self item))).

Definition error_line (i : Z) (e : exn) : string :=
  "Error creating slide " ++ str_of_int (i + 1) ++ ": " ++ exn_msg e.

Definition lines_of (E : env) (self : generator) (item : Z * value)
  : list string :=
  (stdout (fst (alone E self item))
   ++ match snd (alone E self item) with
      | Ok _ => []
      | Raise e => [error_line (fst item) e]
      end)%list.

(** The temporary files the descriptor leaves behind. *)
Definition left_of (E : env) (self : generator) (item : Z * value)
  : list string :=
  temps (fst (alone E self item)).

(** The deck [create_powerpoint] has built when it comes to line 323, for
    the descriptors [ds]. *)
Definition built (E : env) (self : generator) (ds : list value) : presentation :=
  Presentation (Inches 100) (Inches 75)
               (flat_map (slides_of E self) (enumerate ds)).

Definition is_dict (v : value) : bool :=
  match v with
  | VDict _ => true
  | _ => false
  end.

End Deck.

(** *** Sample inputs *)

Module Samples.
Import Py Pptx PPTGenerator Text.

Definition dq : string := String "034"%char EmptyString.
Definition nl : string := String "010"%char EmptyString.
Definition quoted (s : string) : string := dq ++ s ++ dq.

Definition someone : generator := Generator "gsk_0123456789" "llama-3.1-8b-instant".
Definition cloud : string := "Cloud Security".
Definition three : list string := ["Overview"; "Threats"; "Defenses"].

(** An endpoint that is down. *)
Definition offline : env :=
  Env (fun _ _ _ _ => Raise (Exn APIError "Connection error."))
      (fun _ => Raise (Exn JSONDecodeError "Expecting value: line 1 column 1 (char 0)"))
      (fun _ => Raise (Exn OSError "Connection error."))
      (fun _ => Ok "/tmp/tmpa1b2c3.jpg")
      (fun _ => Ok tt)
      (fun _ => Ok tt)
      (fun _ => Ok tt)
      1730000000
      (fun _ => Ok tt).

(** An endpoint whose reply is [text], which [json.loads] reads as [v]. *)
Definition replying (text : string) (v : value) : env :=
  Env (fun _ _ _ _ => Ok (Some text))
      (fun s => if String.eqb s text then Ok v
                else Raise (Exn JSONDecodeError "Expecting value: line 1 column 1 (char 0)"))
      (fun _ => Raise (Exn OSError "Connection error."))
      (fun _ => Ok "/tmp/tmpa1b2c3.jpg")
      (fun _ => Ok tt)
      (fun _ => Ok tt)
      (fun _ => Ok tt)
      1730000000
      (fun _ => Ok tt).

(** [offline], on a disk where no deck can be written. *)
Definition read_only : env :=
  Env (chat offline) (json_loads offline) (requests_get offline)
      (temp_name offline) (temp_write offline) (read_image offline)
      (os_unlink offline) (time_time offline)
      (fun path =>
         Raise (Exn OSError ("[Errno 30] Read-only file system: '" ++ path ++ "'"))).

(** [offline], but the image host answers with a page that is no image. *)
Definition no_images : env :=
  Env (chat offline) (json_loads offline) (fun _ => Ok 200%Z)
      (temp_name offline) (temp_write offline)
      (fun _ => Raise (Exn OSError "cannot identify image file"))
      (os_unlink offline) (time_time offline) (save_file offline).

(** A fenced reply whose payload holds a fence marker inside a string. *)
Definition marked_members : string := quoted "a" ++ ":" ++ quoted "```".
Definition marked_reply : string :=
  "```json" ++ nl ++ object_text marked_members ++ nl ++ "```".

(** A fenced reply as the prompt asks for it. *)
Definition plain_members : string := quoted "slides" ++ ": []".
Definition plain_reply : string :=
  "```json" ++ nl ++ object_text plain_members ++ nl ++ "```".

(** An endpoint whose reply is an object with an empty [slides]. *)
Definition slideless : env :=
  replying (object_text plain_members) (VDict [("slides", VList [])]).

(** A fenced reply with a word before the payload and a sentence after the
    closing marker. *)
Definition chatty_reply : string :=
  "```json" ++ nl ++ "Deck:" ++ nl ++ object_text plain_members ++ nl ++ "```"
  ++ nl ++ "Hope this helps!".

(** A reply that opens with a fenced snippet before it comes to the payload. *)
Definition snippet_lead : string :=
  "```python" ++ nl ++ "print(1)" ++ nl ++ "```" ++ nl ++ "Here is the deck: ".
Definition snippet_reply : string :=
  snippet_lead ++ object_text plain_members ++ "".

(** A reply with two slides, for a request of three sections. *)
Definition short_reply : string :=
  "{" ++ quoted "title" ++ ": " ++ quoted cloud ++ ", " ++ quoted "slides" ++ ": [{"
  ++ quoted "slide_type" ++ ": " ++ quoted "title" ++ ", "
  ++ quoted "title" ++ ": " ++ quoted cloud ++ "}, {"
  ++ quoted "slide_type" ++ ": " ++ quoted "summary" ++ ", "
  ++ quoted "title" ++ ": " ++ quoted "Key Takeaways" ++ "}]}".

Definition short_value : value :=
  VDict [ ("title", VStr cloud);
          ("slides", VList
             [ VDict [("slide_type", VStr "title"); ("title", VStr cloud)];
               VDict [("slide_type", VStr "summary"); ("title", VStr "Key Takeaways")] ]) ].

(** A reply whose [slides] is a number. *)
Definition scalar_reply : string := "{" ++ quoted "slides" ++ ": 5}".
Definition scalar_value : value := VDict [("slides", VInt 5)].

(** A deck description with a descriptor that is no dict in the middle. *)
Definition holed : list value :=
  [ VDict [("slide_type", VStr "title"); ("title", VStr cloud)];
    VInt 7;
    VDict [("slide_type", VStr "summary"); ("title", VStr "Key Takeaways")] ].

(** Three descriptors without a title, one of each type. *)
Definition untitled : list value :=
  [ VDict [("slide_type", VStr "title"); ("subtitle", VStr "An overview")];
    VDict [("slide_type", VStr "section"); ("content", VList [VStr "Scope"])];
    VDict [("slide_type", VStr "summary"); ("content", VList [VStr "Next steps"])] ].

(** A descriptor of an unknown type. *)
Definition odd_slide : dict :=
  [("slide_type", VStr "appendix"); ("title", VStr "More")].

End Samples.

(** *** Notions for the rest of the code *)

Module More.
Import Py Pptx PPTGenerator App Main.

(** A slide without its pictures, and two worlds that differ at most in the
    pictures on their slides, in what was printed and in the temporary files
    on disk: same page size, same slides but for pictures, same saved decks. *)
Definition without_pictures (s : slide) : slide := set_pictures [] s.

Definition same_but_pictures (w1 w2 : world) : Prop :=
  slide_width (deck w1) = slide_width (deck w2)
  /\ slide_height (deck w1) = slide_height (deck w2)
  /\ map without_pictures (slides (deck w1)) = map without_pictures (slides (deck w2))
  /\ files w1 = files w2.

(** Two computations that end the same way in worlds that differ at most in
    pictures, printed lines and temporary files, from whatever world they
    start. *)
Definition alike {A} (m1 m2 : IO A) : Prop :=
  forall w, snd (m1 w) = snd (m2 w) /\ same_but_pictures (fst (m1 w)) (fst (m2 w)).

(** What the slide loop iterates over, or the exception that stops
    [create_powerpoint] before the loop. *)
Definition descriptors (presentation_data : value) : result (list value) :=
  (slides <- getitem presentation_data "slides" ;; iter slides)%py.

(** What the inputs hold when they are offered the titles [stored], the
    first of them at position [i]. *)
Fixpoint entered (text_input : Z -> string -> string) (i : Z)
         (stored : list string) : list string :=
  match stored with
  | [] => []
  | title :: stored' => text_input i title :: entered text_input (i + 1) stored'
  end.

(** The title ["Section k"] of line 124, for the position [i] counted from 0. *)
Definition numbered (i : Z) : string := "Section " ++ str_of_int (i + 1).


(** Whenever the session says a presentation was generated, the download
    section has a file to offer. *)
Definition download_sound (a : app) : Prop :=
  presentation_generated (state a) = true -> download_offered a <> None.

(** *** What a rendered slide shows *)

(** A deck of one slide, with [out] printed and nothing saved. *)
Definition lone (s : slide) (out : list string) : world :=
  World (Presentation 9144000 6858000 [s]) out [] [].





(** A bullet of a content slide. *)
Definition bullet (text : string) : paragraph :=
  Paragraph text 0 (Some (Pt 18)) None (Some (RGB 51 51 51)) None
            (Some (Pt 12)) (Some (Pt 4)).


(** The body of a content slide and of a summary slide for the given
    bullets: a cleared frame keeps its one empty paragraph when there is no
    bullet. *)
Definition bullets (texts : list string) : list paragraph :=
  match texts with
  | [] => [empty_paragraph]
  | _ => map bullet texts
  end.


(** [d.get(k, default)] on a dict. *)
Definition entry (d : dict) (k : string) (default : value) : value :=
  match lookup d k with
  | Some v => v
  | None => default
  end.

(** The colour a builder paints with: that of the descriptor's
    [background_color], or of the builder's default name without one. *)
Definition shade (self : generator) (d : dict) (default : string)
  : result RGBColor :=
  get_background_color self (entry d "background_color" (VStr default)).







(** A slide as [add_slide] made it, but for its background. *)
Definition untouched (s : slide) : Prop :=
  sl_placeholders s = [empty_shape; empty_shape] /\ sl_pictures s = [].

(** A value that cannot be a key of the colour table. *)
Definition unhashable (v : value) : bool :=
  match v with
  | VList _ | VDict _ => true
  | _ => false
  end.

(** The [background_color] of a descriptor, [None] standing for its absence
    (the builders then take a colour name of their own, a str). *)
Definition background (d : dict) : value := entry d "background_color" VNone.

(** The default colour name of the builder a dict is dispatched to. *)
Definition default_shade (d : dict) : string :=
  if eq_str (entry d "slide_type" (VStr "section")) "title" then "blue"
  else if eq_str (entry d "slide_type" (VStr "section")) "summary" then "light_blue"
  else "white".

(** How a builder with the default colour name [default] ends on a
    descriptor without [title], and the slide [s] it leaves: with an
    unhashable background colour, at the colour lookup, the slide not yet
    painted; otherwise at the missing title, the slide painted. *)
Definition stopped {A} (self : generator) (d : dict) (default : string)
           (s : slide) (r : result A) : Prop :=
  untouched s
  /\ if unhashable (background d)
     then r = Raise (Exn TypeError ("unhashable type: '"
                                    ++ type_name (background d) ++ "'"))
          /\ sl_fill s = Solid None
     else r = Raise (Exn KeyError (repr "title"))
          /\ exists c, shade self d default = Ok c /\ sl_fill s = Solid (Some c).






End More.

(* ================================================================= *)
(** ** Facts about str *)

Module StrFacts.
Import Py Text.

Lemma sapp_nil_r (s : string) : s ++ "" = s.
Proof. induction s as [|c s IH]; simpl; [reflexivity | now rewrite IH]. Qed.

Lemma sapp_assoc (a b c : string) : (a ++ b) ++ c = a ++ b ++ c.
Proof. induction a as [|x a IH]; simpl; [reflexivity | now rewrite IH]. Qed.

Lemma slength_app (a b : string) :
  String.length (a ++ b) = (String.length a + String.length b)%nat.
Proof. induction a as [|x a IH]; simpl; [reflexivity | now rewrite IH]. Qed.

Lemma len_app (a b : string) : len (a ++ b) = (len a + len b)%Z.
Proof. unfold len. rewrite slength_app. lia. Qed.

Lemma len_nonneg (a : string) : (0 <= len a)%Z.
Proof. unfold len. lia. Qed.

Lemma take_app (a b : string) : take (String.length a) (a ++ b) = a.
Proof. induction a as [|x a IH]; simpl; [now destruct b | now rewrite IH]. Qed.

Lemma drop_app (a b : string) : drop (String.length a) (a ++ b) = b.
Proof. induction a as [|x a IH]; simpl; [now destruct b | exact IH]. Qed.

Lemma take_all (a : string) : take (String.length a) a = a.
Proof. rewrite <- (sapp_nil_r a) at 2. apply take_app. Qed.

(** *** strip *)

Lemma lstrip_blank (w : string) : blank w = true -> lstrip w = "".
Proof.
  induction w as [|c w IH]; simpl; [reflexivity|].
  intros [Hc Hw]%andb_true_iff. now rewrite Hc, IH.
Qed.

Lemma rstrip_blank (w : string) : blank w = true -> rstrip w = "".
Proof.
  induction w as [|c w IH]; simpl; [reflexivity|].
  intros [Hc Hw]%andb_true_iff. now rewrite IH, Hc.
Qed.

Lemma rstrip_cons (c : ascii) (s : string) :
  isspace c = false -> rstrip (String c s) = String c (rstrip s).
Proof. intros Hc. simpl. destruct (rstrip s); [now rewrite Hc | reflexivity]. Qed.

Lemma rstrip_app (a b : string) :
  rstrip b <> "" -> rstrip (a ++ b) = a ++ rstrip b.
Proof.
  intros Hb. induction a as [|x a IH]; simpl; [reflexivity|].
  rewrite IH. destruct (a ++ rstrip b) eqn:Hab; [|reflexivity].
  destruct a; simpl in Hab; [contradiction | discriminate].
Qed.

Lemma lstrip_app (a : string) (c : ascii) (r : string) :
  isspace c = false -> lstrip (a ++ String c r) = lstrip a ++ String c r.
Proof.
  intros Hc. induction a as [|x a IH]; simpl.
  - now rewrite Hc.
  - destruct (isspace x); [exact IH | reflexivity].
Qed.

Lemma lacks_lstrip (c : ascii) (s : string) :
  lacks c s = true -> lacks c (lstrip s) = true.
Proof.
  induction s as [|x s IH]; simpl; [reflexivity|].
  intros H. destruct (isspace x); [|exact H].
  apply andb_true_iff in H. now apply IH.
Qed.

Lemma lacks_rstrip (c : ascii) (s : string) :
  lacks c s = true -> lacks c (rstrip s) = true.
Proof.
  induction s as [|x s IH]; simpl; [reflexivity|].
  intros [Hx Hs]%andb_true_iff. specialize (IH Hs).
  destruct (rstrip s) eqn:Hr.
  - destruct (isspace x); simpl; [reflexivity | now rewrite Hx].
  - simpl. rewrite Hx. exact IH.
Qed.

Lemma lacks_app (c : ascii) (a b : string) :
  lacks c (a ++ b) = lacks c a && lacks c b.
Proof.
  induction a as [|x a IH]; simpl; [reflexivity|].
  now rewrite IH, andb_assoc.
Qed.

(** *** startswith *)

Lemma startswith_app (s p q : string) :
  startswith s (p ++ q) = true -> startswith s p = true.
Proof.
  revert s. induction p as [|c p IH]; intros s; simpl; [reflexivity|].
  destruct s as [|x s]; [discriminate|].
  intros [Hc Hs]%andb_true_iff. rewrite Hc. simpl. now apply IH.
Qed.

Lemma startswith_self (s t : string) : startswith (s ++ t) s = true.
Proof.
  induction s as [|c s IH]; simpl; [reflexivity|].
  now rewrite Ascii.eqb_refl.
Qed.

(** An occurrence of [sub] cannot run across a character [sub] lacks. *)
Lemma startswith_cut (c : ascii) (sub y t : string) :
  lacks c sub = true ->
  startswith (y ++ String c t) sub = startswith (y ++ String c "") sub.
Proof.
  revert sub. induction y as [|a y IH]; intros sub Hsub; simpl.
  - destruct sub as [|x sub]; [reflexivity|].
    simpl in Hsub. apply andb_true_iff in Hsub as [Hx _]. simpl.
    rewrite Ascii.eqb_sym. apply negb_true_iff in Hx. now rewrite Hx.
  - destruct sub as [|x sub]; [reflexivity|].
    simpl in Hsub. apply andb_true_iff in Hsub as [_ Hs]. simpl.
    now rewrite (IH sub Hs).
Qed.

(** *** find and rfind *)

Lemma find_from_no_start (sub a t : string) (i : Z) :
  no_start sub a t = true -> find_from (a ++ t) sub i = find_from t sub (i + len a).
Proof.
  revert i. induction a as [|c a IH]; intros i; simpl.
  - intros _. f_equal. unfold len. simpl. lia.
  - intros [Hc Ha]%andb_true_iff. apply negb_true_iff in Hc.
    simpl in Hc. destruct sub as [|x sub]; [discriminate|].
    rewrite Hc. rewrite IH by exact Ha. f_equal. unfold len. simpl String.length. lia.
Qed.

Lemma find_from_none (sub s : string) (i : Z) :
  (0 <= i)%Z -> find_from s sub i = (-1)%Z -> no_start sub s "" = true.
Proof.
  revert i. induction s as [|c s IH]; intros i Hi; simpl; [reflexivity|].
  rewrite sapp_nil_r.
  destruct sub as [|x sub]; simpl; [intros; lia|].
  destruct (Ascii.eqb x c && startswith s sub); [intros; lia|].
  intros H. simpl. apply (IH (i + 1)%Z); [lia | exact H].
Qed.

Lemma find_from_lacks (c : ascii) (a t : string) (i : Z) :
  lacks c a = true ->
  find_from (a ++ String c t) (String c "") i = (i + len a)%Z.
Proof.
  revert i. induction a as [|x a IH]; intros i; simpl.
  - intros _. rewrite Ascii.eqb_refl. simpl. unfold len. simpl. lia.
  - intros [Hx Ha]%andb_true_iff. apply negb_true_iff in Hx. rewrite Hx. simpl.
    rewrite IH by exact Ha. unfold len. simpl String.length. lia.
Qed.

Lemma no_start_lacks (c : ascii) (s : string) :
  no_start (String c "") s "" = true -> lacks c s = true.
Proof.
  induction s as [|x s IH]; simpl; [reflexivity|].
  intros [Hx Hs]%andb_true_iff. rewrite (IH Hs).
  destruct (Ascii.eqb c x); [discriminate Hx | reflexivity].
Qed.

Lemma contains_lacks (c : ascii) (s : string) :
  contains s (String c "") = false -> lacks c s = true.
Proof.
  unfold contains, find. intros H. apply negb_false_iff, Z.eqb_eq in H.
  apply no_start_lacks. now apply (find_from_none _ _ 0%Z).
Qed.

Lemma rfind_from_lacks (c : ascii) (s : string) (i : Z) :
  lacks c s = true -> rfind_from s (String c "") i = (-1)%Z.
Proof.
  revert i. induction s as [|x s IH]; intros i; simpl; [reflexivity|].
  intros [Hx Hs]%andb_true_iff. rewrite IH by exact Hs. simpl.
  apply negb_true_iff in Hx. now rewrite Hx.
Qed.

Lemma rfind_from_last (c : ascii) (a t : string) (i : Z) :
  (0 <= i)%Z -> lacks c t = true ->
  rfind_from (a ++ String c t) (String c "") i = (i + len a)%Z.
Proof.
  intros Hi Ht. revert i Hi. induction a as [|x a IH]; intros i Hi; simpl.
  - rewrite rfind_from_lacks by exact Ht. simpl. rewrite Ascii.eqb_refl.
    simpl. unfold len. simpl. lia.
  - rewrite IH by lia. pose proof (len_nonneg a).
    destruct (Z.eqb_spec (i + 1 + len a) (-1)); [lia|].
    unfold len. simpl String.length. lia.
Qed.

(** *** Occurrences that start inside a prefix *)

Lemma no_start_app (sub a b t : string) :
  no_start sub (a ++ b) t = no_start sub a (b ++ t) && no_start sub b t.
Proof.
  induction a as [|c a IH]; simpl; [reflexivity|].
  rewrite IH, sapp_assoc. now rewrite andb_assoc.
Qed.

Lemma no_start_blank (c : ascii) (sub w t : string) :
  isspace c = false -> blank w = true -> no_start (String c sub) w t = true.
Proof.
  intros Hc. induction w as [|x w IH]; simpl; [reflexivity|].
  intros [Hx Hw]%andb_true_iff. rewrite (IH Hw), andb_true_r.
  destruct (Ascii.eqb_spec c x) as [->|]; [congruence | reflexivity].
Qed.

Lemma no_start_longer (p q a t : string) :
  no_start p a t = true -> no_start (p ++ q) a t = true.
Proof.
  induction a as [|c a IH]; simpl; [reflexivity|].
  intros [Hc Ha]%andb_true_iff. rewrite (IH Ha), andb_true_r.
  apply negb_true_iff. apply negb_true_iff in Hc.
  destruct (startswith (String c (a ++ t)) (p ++ q)) eqn:Hpq; [|reflexivity].
  apply startswith_app in Hpq. congruence.
Qed.

(** Whatever follows a character [sub] lacks cannot complete an occurrence
    of [sub] begun before it. *)
Lemma no_start_cut (c : ascii) (sub a t : string) :
  lacks c sub = true ->
  no_start sub a (String c t) = no_start sub a (String c "").
Proof.
  intros Hsub. induction a as [|x a IH]; simpl; [reflexivity|].
  rewrite IH. f_equal. f_equal.
  exact (startswith_cut c sub (String x a) t Hsub).
Qed.


Lemma rstrip_app_blank (a w : string) : blank w = true -> rstrip (a ++ w) = rstrip a.
Proof.
  intros Hw. induction a as [|x a IH]; simpl; [now apply rstrip_blank|].
  now rewrite IH.
Qed.

Lemma find_from_start (s sub : string) (i : Z) :
  startswith s sub = true -> find_from s sub i = i.
Proof. intros H. destruct s; simpl; now rewrite H. Qed.

(** *** split *)

Lemma split_rounds_none (n : nat) (s sep : string) :
  find s sep = (-1)%Z -> split_rounds (S n) s sep = [s].
Proof. intros H. simpl. now rewrite H. Qed.

Lemma split_rounds_found (n : nat) (a b sep : string) :
  find (a ++ sep ++ b) sep = len a ->
  split_rounds (S n) (a ++ sep ++ b) sep = a :: split_rounds n b sep.
Proof.
  intros H. simpl. rewrite H. pose proof (len_nonneg a).
  destruct (Z.eqb_spec (len a) (-1)); [lia|].
  unfold len. rewrite Nat2Z.id, take_app. f_equal.
  rewrite <- slength_app, <- sapp_assoc, drop_app. reflexivity.
Qed.

Lemma find_no_start (sub a t : string) :
  no_start sub a (sub ++ t) = true -> find (a ++ sub ++ t) sub = len a.
Proof.
  intros H. unfold find. rewrite find_from_no_start by exact H.
  apply find_from_start, startswith_self.
Qed.

End StrFacts.

Module Extraction.
Import Py PPTGenerator Text Samples StrFacts.
Lemma no_start_object (m t : string) :
  contains (object_text m) "```" = false ->
  no_start "```" (object_text m) t = true.
Proof.
  unfold contains, find, object_text. intros H.
  apply negb_false_iff, Z.eqb_eq in H.
  apply (find_from_none _ _ 0%Z) in H; [|lia].
  change (no_start "```" (m ++ "}") "" = true) in H.
  change (no_start "```" (m ++ "}") t = true).
  rewrite no_start_app in *. apply andb_true_iff in H as [H1 _].
  apply andb_true_iff. split; [|reflexivity].
  change ("}" ++ t) with (String "}" t). rewrite no_start_cut by reflexivity.
  exact H1.
Qed.

Lemma no_start_body (pre m post t : string) :
  blank pre = true -> blank post = true ->
  contains (object_text m) "```" = false ->
  no_start "```" (pre ++ object_text m ++ post) t = true.
Proof.
  intros Hpre Hpost Hm.
  rewrite !no_start_app. rewrite no_start_blank, no_start_object, no_start_blank; auto.
Qed.

(** Lines 97-100 on a text whose first opening brace and last closing brace
    are those of the payload. *)
Lemma braces (l m t : string) :
  lacks "{" l = true -> lacks "}" t = true ->
  let content := l ++ object_text m ++ t in
  (if negb (find content "{" =? -1)%Z && negb (rfind content "}" =? -1)%Z
   then slice content (find content "{") (rfind content "}" + 1)
   else content) = object_text m.
Proof.
  intros Hl Ht content. subst content. unfold object_text.
  assert (Hf : find (l ++ "{" ++ m ++ "}" ++ t) "{" = len l).
  { unfold find. change ("{" ++ m ++ "}" ++ t) with (String "{" (m ++ "}" ++ t)).
    rewrite find_from_lacks by exact Hl. lia. }
  assert (Hr : rfind (l ++ "{" ++ m ++ "}" ++ t) "}" = (len l + len m + 1)%Z).
  { unfold rfind.
    replace (l ++ "{" ++ m ++ "}" ++ t) with ((l ++ "{" ++ m) ++ String "}" t)
      by (now rewrite !sapp_assoc).
    rewrite rfind_from_last by (lia || exact Ht).
    rewrite !len_app. change (len "{") with 1%Z. lia. }
  replace (l ++ ("{" ++ m ++ "}") ++ t) with (l ++ "{" ++ m ++ "}" ++ t)
    by (now rewrite !sapp_assoc).
  rewrite Hf, Hr.
  pose proof (len_nonneg l). pose proof (len_nonneg m). pose proof (len_nonneg t).
  destruct (Z.eqb_spec (len l) (-1)); [lia|].
  destruct (Z.eqb_spec (len l + len m + 1) (-1)); [lia|]. simpl negb. simpl andb.
  unfold slice, bound.
  assert (Hlen : len (l ++ "{" ++ m ++ "}" ++ t) = (len l + (len m + 2) + len t)%Z).
  { rewrite !len_app. change (len "{") with 1%Z. change (len "}") with 1%Z. lia. }
  rewrite Hlen.
  destruct (Z.ltb_spec (len l) 0); [lia|].
  destruct (Z.ltb_spec (len l + len m + 1 + 1) 0); [lia|].
  rewrite !Z.min_l by lia.
  replace (Z.to_nat (len l)) with (String.length l) by (unfold len; lia).
  rewrite drop_app.
  replace (Z.to_nat (len l + len m + 1 + 1 - len l))
    with (String.length ("{" ++ m ++ "}")).
  2:{ rewrite !slength_app. unfold len. simpl String.length. lia. }
  replace ("{" ++ m ++ "}" ++ t) with (("{" ++ m ++ "}") ++ t)
    by (now rewrite !sapp_assoc).
  apply take_app.
Qed.

Lemma strip_fenced (o1 o2 x : string) :
  blank o1 = true -> blank o2 = true ->
  strip (o1 ++ "```" ++ x ++ "```" ++ o2) = "```" ++ x ++ "```".
Proof.
  intros H1 H2. unfold strip.
  rewrite <- !sapp_assoc. rewrite rstrip_app_blank by exact H2.
  rewrite (rstrip_app _ "```") by discriminate.
  change (rstrip "```") with "```". rewrite !sapp_assoc.
  change ("```" ++ x ++ "```") with (String "`" ("``" ++ x ++ "```")).
  rewrite lstrip_app by reflexivity. now rewrite lstrip_blank.
Qed.

Lemma index_0 {A} (x : A) (l : list A) : index (x :: l) 0 = Ok x.
Proof. reflexivity. Qed.

Lemma index_1 {A} (x y : A) (l : list A) : index (x :: y :: l) 1 = Ok y.
Proof. reflexivity. Qed.

Lemma rstrip_keep (x : string) (c : ascii) (t : string) :
  isspace c = false -> rstrip (x ++ String c t) = x ++ String c (rstrip t).
Proof.
  intros Hc. rewrite rstrip_app; rewrite rstrip_cons by exact Hc;
    [reflexivity | discriminate].
Qed.

Lemma strip_prose (lead m trail : string) :
  strip (lead ++ object_text m ++ trail)
  = lstrip lead ++ object_text m ++ rstrip trail.
Proof.
  unfold strip, object_text.
  replace (lead ++ ("{" ++ m ++ "}") ++ trail)
    with ((lead ++ "{" ++ m) ++ String "}" trail) by (now rewrite !sapp_assoc).
  rewrite rstrip_keep by reflexivity. rewrite !sapp_assoc.
  change ("{" ++ m ++ String "}" (rstrip trail))
    with (String "{" (m ++ String "}" (rstrip trail))).
  rewrite lstrip_app by reflexivity.
  reflexivity.
Qed.

(** *** The pieces of a split *)

Lemma startswith_cons (a c : ascii) (p s : string) :
  startswith (String c s) (String a p) = Ascii.eqb a c && startswith s p.
Proof. reflexivity. Qed.

Lemma startswith_extend (x t sub : string) :
  startswith x sub = true -> startswith (x ++ t) sub = true.
Proof.
  revert x. induction sub as [|a sub IH]; intros x; [reflexivity|].
  destruct x as [|c x]; [discriminate|]. cbn [append startswith].
  intros [Hc Hx]%andb_true_iff. rewrite Hc. now apply IH.
Qed.

Lemma startswith_split (s p : string) :
  startswith s p = true -> exists t, s = p ++ t.
Proof.
  revert s. induction p as [|a p IH]; intros s; [now exists s|].
  destruct s as [|c s]; [discriminate|]. cbn [startswith].
  intros [Hc Hs]%andb_true_iff. apply Ascii.eqb_eq in Hc as ->.
  destruct (IH s Hs) as [t ->]. now exists t.
Qed.

(** An occurrence of [sub] that begins in [x] and fits in [x] is there
    whatever follows. *)
Lemma startswith_long (x u sub : string) :
  (String.length sub <= String.length x)%nat ->
  startswith (x ++ u) sub = startswith x sub.
Proof.
  revert x. induction sub as [|a sub IH]; intros x; [reflexivity|].
  destruct x as [|c x]; cbn [String.length]; [lia|]. intros H.
  cbn [append startswith]. rewrite IH by lia. reflexivity.
Qed.

Lemma no_start_shorten (sub a p t : string) :
  no_start sub a (p ++ t) = true -> no_start sub a p = true.
Proof.
  induction a as [|c a IH]; [reflexivity|]. cbn [no_start].
  intros [Hc Ha]%andb_true_iff. rewrite (IH Ha), andb_true_r.
  apply negb_true_iff. apply negb_true_iff in Hc.
  destruct (startswith (String c a ++ p) sub) eqn:H; [|reflexivity].
  apply (startswith_extend _ t) in H. rewrite sapp_assoc in H. congruence.
Qed.

Lemma no_start_tail (sub a p u v : string) :
  (String.length sub <= S (String.length p))%nat ->
  no_start sub a (p ++ u) = no_start sub a (p ++ v).
Proof.
  intros H. induction a as [|c a IH]; [reflexivity|]. cbn [no_start].
  rewrite IH. f_equal. f_equal.
  rewrite <- !sapp_assoc.
  rewrite !(startswith_long (String c a ++ p)); [reflexivity| |];
    rewrite slength_app; cbn [String.length]; lia.
Qed.

Lemma find_from_step (c : ascii) (s sub : string) (i : Z) :
  find_from (String c s) sub i
  = if startswith (String c s) sub then i else find_from s sub (i + 1).
Proof. reflexivity. Qed.

Lemma find_from_range (s sub : string) (i : Z) :
  find_from s sub i = (-1)%Z \/ (i <= find_from s sub i <= i + len s)%Z.
Proof.
  revert i. induction s as [|c s IH]; intros i.
  - cbn [find_from]. destruct (startswith "" sub); [right; unfold len; simpl; lia | now left].
  - rewrite find_from_step. destruct (startswith (String c s) sub).
    + right. pose proof (len_nonneg (String c s)). lia.
    + destruct (IH (i + 1)%Z) as [H | H]; [now left | right].
      unfold len in *. cbn [String.length]. lia.
Qed.

Lemma find_none (sub a : string) :
  sub <> "" -> no_start sub a "" = true -> find a sub = (-1)%Z.
Proof.
  intros Hsub Ha. unfold find. rewrite <- (sapp_nil_r a).
  rewrite find_from_no_start by exact Ha.
  destruct sub; [contradiction | reflexivity].
Qed.

Lemma take_app_more (a b : string) (n : nat) :
  take (String.length a + n) (a ++ b) = a ++ take n b.
Proof. induction a as [|x a IH]; simpl; [reflexivity | now rewrite IH]. Qed.

Lemma upto_first_none (s sub : string) :
  find s sub = (-1)%Z -> upto_first s sub = s.
Proof. unfold upto_first. now intros ->. Qed.

Lemma upto_first_at (s sub : string) (n : nat) :
  find s sub = Z.of_nat n -> upto_first s sub = take n s.
Proof.
  unfold upto_first. intros ->.
  destruct (Z.eqb_spec (Z.of_nat n) (-1)); [lia|]. now rewrite Nat2Z.id.
Qed.

Lemma upto_first_all (sub a : string) :
  sub <> "" -> no_start sub a "" = true -> upto_first a sub = a.
Proof. intros Hsub Ha. apply upto_first_none. now apply find_none. Qed.

Lemma upto_first_found (sub a t : string) :
  no_start sub a (sub ++ t) = true -> upto_first (a ++ sub ++ t) sub = a.
Proof.
  intros Ha. rewrite (upto_first_at _ _ (String.length a)).
  - apply take_app.
  - now apply find_no_start.
Qed.

Lemma index_pieces_0 (s sep : string) :
  index (pieces s sep) 0 = Ok (upto_first s sep).
Proof.
  unfold pieces, upto_first. cbn [split_rounds].
  destruct (find s sep =? -1)%Z; reflexivity.
Qed.

Lemma index_pieces_1 (s sep : string) :
  sep <> "" -> startswith s sep = true ->
  index (pieces s sep) 1 = Ok (upto_first (drop (String.length sep) s) sep).
Proof.
  intros Hsep Hs. unfold pieces.
  destruct s as [|c s]; [destruct sep; [contradiction | discriminate]|].
  assert (Hf : find (String c s) sep = 0%Z)
    by (unfold find; now apply find_from_start).
  cbn [String.length]. cbn [split_rounds]. rewrite !Hf.
  cbn [Z.eqb Z.to_nat Nat.add]. unfold upto_first.
  destruct (find (drop (String.length sep) (String c s)) sep =? -1)%Z;
    reflexivity.
Qed.

(** Lines 93 and 95: what the two splits keep of a reply that opens with the
    marker [sep]. *)
Lemma fence_branch (content sep : string) :
  sep <> "" -> startswith content sep = true ->
  (a <- split content sep ;;
   b <- index a 1 ;;
   c <- split b "```" ;;
   d <- index c 0 ;;
   Ok (strip d))%py
  = Ok (strip (upto_first (upto_first (drop (String.length sep) content) sep)
                          "```")).
Proof.
  intros Hsep Hs. destruct sep as [|x sep]; [contradiction|].
  cbn [split rbind]. rewrite index_pieces_1 by assumption.
  cbn [rbind]. now rewrite index_pieces_0.
Qed.

(** Inside an unlabelled fence. *)
Lemma unlabeled_inside (body rest : string) :
  no_start "```" body rest = true -> closes rest = true ->
  upto_first (upto_first (body ++ rest) "```") "```" = body.
Proof.
  intros Hb Hr.
  assert (Hbody : upto_first body "```" = body).
  { apply upto_first_all; [discriminate|].
    apply (no_start_shorten _ _ "" rest). exact Hb. }
  destruct rest as [|c rest].
  - rewrite sapp_nil_r. now rewrite Hbody.
  - cbn [closes] in Hr. destruct (startswith_split _ _ Hr) as [t Ht].
    rewrite Ht in *. rewrite upto_first_found by exact Hb. exact Hbody.
Qed.

(** Inside a labelled fence: the text up to the closing marker, and one or
    two backticks of that marker when a labelled marker begins within it. *)
Lemma labeled_inside (body rest : string) :
  no_start "```" body rest = true -> closes rest = true ->
  exists ticks,
    lacks "}" ticks = true
    /\ upto_first (upto_first (body ++ rest) "```json") "```" = body ++ ticks.
Proof.
  intros Hb Hr.
  assert (Hbody : upto_first body "```" = body).
  { apply upto_first_all; [discriminate|].
    apply (no_start_shorten _ _ "" rest). exact Hb. }
  destruct rest as [|c rest].
  - exists "". split; [reflexivity|]. rewrite !sapp_nil_r in *.
    rewrite (upto_first_all "```json") by
      (discriminate || now apply (no_start_longer "```" "json")).
    exact Hbody.
  - cbn [closes] in Hr. destruct (startswith_split _ _ Hr) as [t Ht].
    rewrite Ht in *. clear Ht Hr c rest.
    assert (Hfind : find (body ++ "```" ++ t) "```json"
                    = find_from ("```" ++ t) "```json" (len body)).
    { unfold find. rewrite find_from_no_start
        by now apply (no_start_longer "```" "json").
      reflexivity. }
    change ("```" ++ t) with (String "`" (String "`" (String "`" t))) in Hfind.
    rewrite find_from_step in Hfind.
    destruct (startswith (String "`" (String "`" (String "`" t))) "```json").
    { exists "". split; [reflexivity|]. rewrite sapp_nil_r.
      rewrite (upto_first_at (body ++ "```" ++ t) "```json" (String.length body))
        by exact Hfind.
      rewrite take_app. exact Hbody. }
    rewrite find_from_step in Hfind.
    destruct (startswith (String "`" (String "`" t)) "```json").
    { exists "`". split; [reflexivity|].
      rewrite (upto_first_at (body ++ "```" ++ t) "```json"
                             (String.length body + 1))
        by (etransitivity; [exact Hfind | unfold len; lia]).
      rewrite take_app_more. cbn [take append].
      apply upto_first_all; [discriminate|].
      rewrite no_start_app. apply andb_true_iff. split; [|reflexivity].
      apply (no_start_shorten _ _ "`" ("``" ++ t)). exact Hb. }
    rewrite find_from_step in Hfind.
    destruct (startswith (String "`" t) "```json").
    { exists "``". split; [reflexivity|].
      rewrite (upto_first_at (body ++ "```" ++ t) "```json"
                             (String.length body + 2))
        by (etransitivity; [exact Hfind | unfold len; lia]).
      rewrite take_app_more. cbn [take append].
      apply upto_first_all; [discriminate|].
      rewrite no_start_app. apply andb_true_iff. split; [|reflexivity].
      apply (no_start_shorten _ _ "``" ("`" ++ t)). exact Hb. }
    exists "". split; [reflexivity|]. rewrite sapp_nil_r.
    destruct (find_from_range t "```json" (len body + 1 + 1 + 1)) as [Hq | Hq].
    + rewrite (upto_first_none (body ++ "```" ++ t) "```json")
        by (etransitivity; [exact Hfind | exact Hq]).
      now apply upto_first_found.
    + pose proof (len_nonneg body) as Hlen.
      remember (find_from t "```json" (len body + 1 + 1 + 1)) as q eqn:Eq.
      rewrite (upto_first_at (body ++ "```" ++ t) "```json"
                 (String.length body + (3 + Z.to_nat (q - len body - 3))))
        by (etransitivity; [exact Hfind | unfold len in *; lia]).
      rewrite take_app_more. cbn [Nat.add take append].
      change (String "`" (String "`" (String "`" ?u))) with ("```" ++ u).
      apply upto_first_found.
      rewrite (no_start_tail "```" body "```" _ t) by (cbn; lia).
      exact Hb.
Qed.

(** A reply that opens with an unlabelled marker and yet with the labelled
    one has the label at the head of its leading text. *)
Lemma labeled_lead (lead m r : string) :
  startswith (lead ++ object_text m ++ r) "json" = true ->
  exists lead', lead = "json" ++ lead'.
Proof.
  unfold object_text.
  destruct lead as [|c1 lead]; cbn [append]; [discriminate|].
  rewrite startswith_cons. intros [H1 H]%andb_true_iff.
  apply Ascii.eqb_eq in H1 as <-.
  destruct lead as [|c2 lead]; cbn [append] in H; [discriminate|].
  rewrite startswith_cons in H. apply andb_true_iff in H as [H2 H].
  apply Ascii.eqb_eq in H2 as <-.
  destruct lead as [|c3 lead]; cbn [append] in H; [discriminate|].
  rewrite startswith_cons in H. apply andb_true_iff in H as [H3 H].
  apply Ascii.eqb_eq in H3 as <-.
  destruct lead as [|c4 lead]; cbn [append] in H; [discriminate|].
  rewrite startswith_cons in H. apply andb_true_iff in H as [H4 H].
  apply Ascii.eqb_eq in H4 as <-.
  now exists lead.
Qed.

(** Lines 97-100 on what the splits kept. *)
Lemma braces_of_kept (lead m trail ticks : string) :
  lacks "{" lead = true -> lacks "}" trail = true -> lacks "}" ticks = true ->
  let content := strip ((lead ++ object_text m ++ trail) ++ ticks) in
  (if negb (find content "{" =? -1)%Z && negb (rfind content "}" =? -1)%Z
   then slice content (find content "{") (rfind content "}" + 1)
   else content) = object_text m.
Proof.
  intros Hl Ht Hk.
  replace ((lead ++ object_text m ++ trail) ++ ticks)
    with (lead ++ object_text m ++ (trail ++ ticks)) by (now rewrite !sapp_assoc).
  rewrite strip_prose. apply braces.
  - now apply lacks_lstrip.
  - apply lacks_rstrip. rewrite lacks_app. now rewrite Ht, Hk.
Qed.

Lemma labeled_case (lead m trail rest : string) :
  lacks "{" lead = true -> lacks "}" trail = true ->
  no_start "```" (lead ++ object_text m ++ trail) rest = true ->
  closes rest = true ->
  clean_json ("```json" ++ lead ++ object_text m ++ trail ++ rest)
  = Ok (object_text m).
Proof.
  intros Hl Ht Hb Hr. unfold clean_json.
  rewrite (startswith_self "```json").
  rewrite (fence_branch _ "```json") by (discriminate || apply startswith_self).
  rewrite drop_app.
  replace (lead ++ object_text m ++ trail ++ rest)
    with ((lead ++ object_text m ++ trail) ++ rest) by (now rewrite !sapp_assoc).
  destruct (labeled_inside _ _ Hb Hr) as (ticks & Hk & ->).
  cbn [rbind]. f_equal. now apply braces_of_kept.
Qed.

Lemma startswith_same (p s q : string) :
  startswith (p ++ s) (p ++ q) = startswith s q.
Proof.
  induction p as [|c p IH]; [reflexivity|]. cbn [append startswith].
  now rewrite Ascii.eqb_refl.
Qed.

Lemma unlabeled_case (lead m trail rest : string) :
  lacks "{" lead = true -> lacks "}" trail = true ->
  no_start "```" (lead ++ object_text m ++ trail) rest = true ->
  closes rest = true ->
  clean_json ("```" ++ lead ++ object_text m ++ trail ++ rest)
  = Ok (object_text m).
Proof.
  intros Hl Ht Hb Hr.
  destruct (startswith ("```" ++ lead ++ object_text m ++ trail ++ rest) "```json")
    eqn:Hj.
  - change "```json" with ("```" ++ "json") in Hj. rewrite startswith_same in Hj.
    destruct (labeled_lead lead m (trail ++ rest) Hj) as [lead' ->].
    change ("```" ++ ("json" ++ lead') ++ object_text m ++ trail ++ rest)
      with ("```json" ++ lead' ++ object_text m ++ trail ++ rest).
    apply labeled_case; assumption.
  - unfold clean_json. rewrite Hj, (startswith_self "```").
    rewrite (fence_branch _ "```") by (discriminate || apply startswith_self).
    rewrite drop_app.
    replace (lead ++ object_text m ++ trail ++ rest)
      with ((lead ++ object_text m ++ trail) ++ rest) by (now rewrite !sapp_assoc).
    rewrite (unlabeled_inside _ _ Hb Hr).
    cbn [rbind]. f_equal.
    rewrite <- (sapp_nil_r (lead ++ object_text m ++ trail)).
    now apply braces_of_kept.
Qed.

Lemma bare_case (lead m trail : string) :
  lacks "{" lead = true -> lacks "}" trail = true ->
  startswith (lead ++ object_text m ++ trail) "```" = false ->
  clean_json (lead ++ object_text m ++ trail) = Ok (object_text m).
Proof.
  intros Hl Ht Hs. unfold clean_json. rewrite Hs.
  replace (startswith (lead ++ object_text m ++ trail) "```json") with false.
  2:{ symmetry. apply not_true_is_false. intros H.
      apply (startswith_app _ "```" "json") in H. congruence. }
  cbn [rbind]. f_equal. now apply braces.
Qed.

Lemma blank_lacks (c : ascii) (w : string) :
  isspace c = false -> blank w = true -> lacks c w = true.
Proof.
  intros Hc. induction w as [|x w IH]; [reflexivity|]. cbn [blank lacks].
  intros [Hx Hw]%andb_true_iff. rewrite (IH Hw), andb_true_r.
  destruct (Ascii.eqb_spec c x) as [->|]; [congruence | reflexivity].
Qed.

(** The two shapes of the prompt's own words are among the ways of
    [wrapped]: a payload without marker between the two markers of a fence,
    with white space around it and around the fence, and a payload between
    prose in a reply that does not open with a marker. *)
Lemma fenced_is_wrapped (m text : string) :
  fenced (object_text m) text -> contains (object_text m) "```" = false ->
  wrapped (object_text m) (strip text).
Proof.
  intros [o1 pre post o2 H1 Hpre Hpost H2 | o1 pre post o2 H1 Hpre Hpost H2] Hm.
  - change ("```json" ++ pre ++ object_text m ++ post ++ "```" ++ o2)
      with ("```" ++ "json" ++ pre ++ object_text m ++ post ++ "```" ++ o2).
    replace ("json" ++ pre ++ object_text m ++ post ++ "```" ++ o2)
      with (("json" ++ pre ++ object_text m ++ post) ++ "```" ++ o2)
      by (now rewrite !sapp_assoc).
    rewrite strip_fenced by assumption.
    change ("```" ++ ("json" ++ pre ++ object_text m ++ post) ++ "```")
      with ("```json" ++ (pre ++ object_text m ++ post) ++ "```").
    rewrite !sapp_assoc.
    apply in_labeled_fence; try reflexivity; try (now apply blank_lacks).
    now apply no_start_body.
  - replace (pre ++ object_text m ++ post ++ "```" ++ o2)
      with ((pre ++ object_text m ++ post) ++ "```" ++ o2)
      by (now rewrite !sapp_assoc).
    rewrite strip_fenced by assumption. rewrite !sapp_assoc.
    apply in_unlabeled_fence; try reflexivity; try (now apply blank_lacks).
    now apply no_start_body.
Qed.

Lemma prose_is_wrapped (m text : string) :
  in_prose (object_text m) text -> startswith (strip text) "```" = false ->
  wrapped (object_text m) (strip text).
Proof.
  intros [lead trail Hl Ht]. rewrite strip_prose. intros Hs.
  apply in_bare_prose; [| | exact Hs].
  - now apply lacks_lstrip, contains_lacks.
  - now apply lacks_rstrip, contains_lacks.
Qed.

(** C3, as amended.  For every reply that, once stripped, holds its
    payload, the text of a JSON object, in one of the ways of [wrapped], the
    extraction step returns exactly the payload: after a leading fence
    marker, labelled or not, with no marker beginning before the end of the
    text that follows the payload, whatever comes after the closing marker;
    or in a reply that does not begin with a marker.  In both cases the text
    before the payload has no opening brace and the text after it, up to the
    closing marker if there is one, no closing brace. *)
Theorem extraction_recovers_payload (members text : string) :
  wrapped (object_text members) (strip text) ->
  extraction text = Ok (object_text members).
Proof.
  unfold extraction. intros H. remember (strip text) as content eqn:Ec. clear Ec.
  destruct H as [lead trail rest Hl Ht Hb Hr | lead trail rest Hl Ht Hb Hr
                 | lead trail Hl Ht Hs].
  - now apply labeled_case.
  - now apply unlabeled_case.
  - now apply bare_case.
Qed.

(** C3, as stated, fails twice.  A fenced reply whose payload carries a fence
    marker inside a string value is cut at that marker, and what reaches the
    parser is the payload up to it.  A reply whose leading prose opens with a
    fenced snippet of its own loses the payload altogether: what reaches the
    parser is the inside of that snippet. *)
Lemma extraction_cuts_marked_payload :
  (fenced (object_text marked_members) marked_reply
   /\ extraction marked_reply = Ok ("{" ++ quoted "a" ++ ":" ++ dq)
   /\ extraction marked_reply <> Ok (object_text marked_members))
  /\ (in_prose (object_text plain_members) snippet_reply
      /\ extraction snippet_reply = Ok ("python" ++ nl ++ "print(1)")
      /\ extraction snippet_reply <> Ok (object_text plain_members)).
Proof.
  split; split; [|split| |split].
  - exact (labeled_fence _ "" nl nl "" eq_refl eq_refl eq_refl eq_refl).
  - reflexivity.
  - discriminate.
  - exact (prose_around _ snippet_lead "" eq_refl eq_refl).
  - reflexivity.
  - discriminate.
Qed.

(** The amended statement at a fenced reply with a word before the payload
    and a sentence after the closing marker. *)
Lemma extraction_recovers_chatty_reply :
  extraction chatty_reply = Ok (object_text plain_members).
Proof.
  apply extraction_recovers_payload.
  change (strip chatty_reply)
    with ("```json" ++ (nl ++ "Deck:" ++ nl) ++ object_text plain_members ++ nl
          ++ ("```" ++ nl ++ "Hope this helps!")).
  apply in_labeled_fence; reflexivity.
Defined.

(** Lines 92-100 never raise: a text that starts with a fence marker splits
    into two pieces at least. *)
Lemma clean_json_returns (content : string) :
  exists c, clean_json content = Ok c.
Proof.
  assert (Hsplit : forall s sep, sep <> "" -> startswith s sep = true ->
            exists x y l, pieces s sep = x :: y :: l).
  { intros s sep Hsep Hs. unfold pieces. cbn [split_rounds].
    unfold find. rewrite find_from_start by exact Hs.
    cbn [Z.eqb]. destruct s as [|c s].
    - destruct sep; [contradiction | discriminate].
    - cbn [String.length split_rounds].
      destruct (find _ sep =? -1)%Z; eexists; eexists; eexists; reflexivity. }
  assert (Hhd : forall s sep, exists x l, pieces s sep = x :: l).
  { intros s sep. unfold pieces. cbn [split_rounds].
    destruct (find s sep =? -1)%Z; eexists; eexists; reflexivity. }
  unfold clean_json.
  destruct (startswith content "```json") eqn:H1.
  - destruct (Hsplit content "```json" ltac:(discriminate) H1) as (x & y & l & Hp).
    change (split content "```json") with (Ok (pieces content "```json")).
    rewrite Hp. cbn [rbind]. rewrite index_1. cbn [rbind].
    change (split y "```") with (Ok (pieces y "```")).
    destruct (Hhd y "```") as (x' & l' & Hp'). rewrite Hp'.
    cbn [rbind]. rewrite index_0. cbn [rbind]. eexists; reflexivity.
  - destruct (startswith content "```") eqn:H2.
    + destruct (Hsplit content "```" ltac:(discriminate) H2) as (x & y & l & Hp).
      change (split content "```") with (Ok (pieces content "```")).
      rewrite Hp. cbn [rbind]. rewrite index_1. cbn [rbind].
      change (split y "```") with (Ok (pieces y "```")).
      destruct (Hhd y "```") as (x' & l' & Hp'). rewrite Hp'.
      cbn [rbind]. rewrite index_0. cbn [rbind]. eexists; reflexivity.
    + cbn [rbind]. eexists; reflexivity.
Qed.

End Extraction.

(* ================================================================= *)
(** ** The templated deck *)

Module Fallback.
Import Py Pptx PPTGenerator Templated Samples.

Lemma pick_color (i : Z) :
  index colors (i mod 4) = Ok (nth (Z.to_nat (i mod 4)) colors "white").
Proof.
  pose proof (Z.mod_pos_bound i 4 eq_refl) as H.
  assert (Hc : (i mod 4 = 0 \/ i mod 4 = 1 \/ i mod 4 = 2 \/ i mod 4 = 3)%Z) by lia.
  destruct Hc as [-> | [-> | [-> | ->]]]; reflexivity.
Qed.

(** The loop of lines 124-136 never raises and appends one descriptor per
    section name, in order. *)
Lemma append_sections_ok (topic : string) (l : list (Z * string)) (acc : list value) :
  append_sections topic colors l acc
  = Ok (acc ++ map (section_slide topic) l)%list.
Proof.
  revert acc. induction l as [|[i name] l IH]; intros acc; simpl.
  - now rewrite List.app_nil_r.
  - change (Z.pos (Pos.of_succ_nat 3)) with 4%Z. rewrite pick_color.
    cbn [rbind]. rewrite IH. now rewrite <- List.app_assoc.
Qed.

Lemma fallback_value (self : generator) (topic : string) (names : list string) :
  _create_fallback_content self topic names
  = Ok (VDict [("title", VStr topic); ("slides", VList (fallback_slides topic names))]).
Proof.
  unfold _create_fallback_content. fold colors.
  rewrite append_sections_ok. reflexivity.
Qed.

Lemma length_enumerate_from {A} (k : Z) (l : list A) :
  List.length (enumerate_from k l) = List.length l.
Proof.
  revert k. induction l as [|x l IH]; intros k; simpl; [reflexivity | now rewrite IH].
Qed.

Lemma nth_enumerate_from {A} (k : Z) (l : list A) (i : nat) (x : A) :
  nth_error l i = Some x ->
  nth_error (enumerate_from k l) i = Some ((k + Z.of_nat i)%Z, x).
Proof.
  revert k i. induction l as [|y l IH]; intros k [|i]; simpl; try discriminate.
  - intros [= ->]. now rewrite Z.add_0_r.
  - intros H. rewrite (IH (k + 1)%Z i H). do 2 f_equal. lia.
Qed.

Lemma length_fallback_slides (topic : string) (names : list string) :
  List.length (fallback_slides topic names) = (List.length names + 2)%nat.
Proof.
  unfold fallback_slides. simpl. rewrite List.length_app, List.length_map.
  unfold enumerate. rewrite length_enumerate_from. simpl. lia.
Qed.

(** C2.  For every valid request the fallback returns [len(sections) + 2]
    descriptors: the first of type [title] with the fixed subtitle, then one
    of type [section] per requested name, titled by it, in order, and last
    one of type [summary] titled Conclusion & Recommendations. *)
Theorem fallback_shape (self : generator) (topic : string) (names : list string) :
  valid_request topic names = true ->
  exists slides,
    _create_fallback_content self topic names
    = Ok (VDict [("title", VStr topic); ("slides", VList slides)]) /\
    List.length slides = (List.length names + 2)%nat /\
    (exists d, nth_error slides 0 = Some d /\
               getitem d "slide_type" = Ok (VStr "title") /\
               getitem d "subtitle"
               = Ok (VStr "Comprehensive Professional Presentation")) /\
    (forall i name, nth_error names i = Some name ->
       exists d, nth_error slides (S i) = Some d /\
                 getitem d "slide_type" = Ok (VStr "section") /\
                 getitem d "title" = Ok (VStr name)) /\
    (exists d, nth_error slides (S (List.length names)) = Some d /\
               getitem d "slide_type" = Ok (VStr "summary") /\
               getitem d "title" = Ok (VStr "Conclusion & Recommendations")).
Proof.
  intros _. exists (fallback_slides topic names).
  split; [apply fallback_value|].
  split; [apply length_fallback_slides|].
  split; [|split].
  - exists (title_slide topic). repeat split.
  - intros i name Hi. exists (section_slide topic (Z.of_nat i, name)).
    split; [|split; reflexivity].
    unfold fallback_slides. cbn [nth_error].
    rewrite nth_error_app1.
    + rewrite nth_error_map. unfold enumerate.
      now rewrite (nth_enumerate_from 0 names i name Hi).
    + rewrite List.length_map. unfold enumerate. rewrite length_enumerate_from.
      apply nth_error_Some. congruence.
  - exists summary_slide. split; [|split; reflexivity].
    unfold fallback_slides. cbn [nth_error].
    rewrite nth_error_app2; rewrite List.length_map; unfold enumerate;
      rewrite length_enumerate_from; [|lia].
    now rewrite Nat.sub_diag.
Qed.

(** The scenario of the specification: Cloud Security in three sections. *)
Lemma fallback_shape_cloud :
  exists slides,
    _create_fallback_content someone cloud three
    = Ok (VDict [("title", VStr cloud); ("slides", VList slides)]) /\
    List.length slides = 5%nat /\
    (exists d, nth_error slides 0 = Some d /\
               getitem d "slide_type" = Ok (VStr "title") /\
               getitem d "subtitle"
               = Ok (VStr "Comprehensive Professional Presentation")) /\
    (forall i name, nth_error three i = Some name ->
       exists d, nth_error slides (S i) = Some d /\
                 getitem d "slide_type" = Ok (VStr "section") /\
                 getitem d "title" = Ok (VStr name)) /\
    (exists d, nth_error slides 4 = Some d /\
               getitem d "slide_type" = Ok (VStr "summary") /\
               getitem d "title" = Ok (VStr "Conclusion & Recommendations")).
Proof.
  exact (fallback_shape someone cloud three eq_refl).
Defined.

End Fallback.

(* ================================================================= *)
(** ** Content generation *)

Module Content.
Import Py Pptx PPTGenerator Text Templated Deck Samples Fallback.

Lemma request_raises E self topic names :
  failed E self topic names ->
  exists e, request_content E self topic names = Raise e.
Proof.
  intros [e H | H | text e H Hp | text v H Hp Hv];
    unfold request_content; rewrite H; cbn [rbind].
  - now exists e.
  - eexists; reflexivity.
  - unfold parsed in Hp.
    destruct (clean_json (strip text)) as [c|e']; cbn [rbind] in *.
    + rewrite Hp. now exists e.
    + now exists e'.
  - unfold parsed in Hp.
    destruct (clean_json (strip text)) as [c|e']; cbn [rbind] in *;
      [|discriminate]. rewrite Hp. cbn [rbind].
    destruct v; cbn [has rbind nonempty_slides] in *;
      try (eexists; reflexivity).
    + destruct (contains _ _); cbn [negb rbind getitem]; eexists; reflexivity.
    + destruct (existsb _ _); cbn [negb rbind getitem]; eexists; reflexivity.
    + destruct (lookup d "slides") as [x|] eqn:Hx; cbn [negb rbind getitem].
      * rewrite Hx. cbn [rbind]. rewrite Hv. eexists; reflexivity.
      * eexists; reflexivity.
Qed.

(** The handler of lines 109-111 at work. *)
Lemma generate_on_raise E self topic names (e : exn) (w : world) :
  request_content E self topic names = Raise e ->
  generate_presentation_content E self topic names w
  = (World (deck w)
           (stdout w ++ [("Error generating content: " ++ exn_msg e)%string])%list
           (files w) (temps w),
     Ok (VDict [("title", VStr topic);
                ("slides", VList (fallback_slides topic names))])).
Proof.
  intros He. unfold generate_presentation_content, try, lift, bind, print.
  rewrite He. now rewrite fallback_value.
Qed.

(** The reply, when it parses to a value with slides, is returned as it is. *)
Lemma generate_on_reply E self topic names (v : value) (w : world) :
  request_content E self topic names = Ok v ->
  generate_presentation_content E self topic names w = (w, Ok v).
Proof.
  intros Hv. unfold generate_presentation_content, try, lift.
  now rewrite Hv.
Qed.

(** C1.  When the call raises, the reply does not parse, or what it parses to
    has no non-empty [slides], the generator prints the error and returns
    what [_create_fallback_content] returns, which is a value: nothing is
    raised past the handler. *)
Theorem generate_presentation_content_falls_back E self topic names :
  failed E self topic names ->
  exists e d,
    _create_fallback_content self topic names = Ok d /\
    forall w,
      generate_presentation_content E self topic names w
      = (World (deck w)
               (stdout w ++ [("Error generating content: " ++ exn_msg e)%string])%list
               (files w) (temps w),
         Ok d).
Proof.
  intros Hf. destruct (request_raises _ _ _ _ Hf) as [e He].
  exists e. eexists. split; [apply fallback_value|].
  intros w. now apply generate_on_raise.
Qed.

(** With the endpoint down, the deck for Cloud Security is the templated one. *)
Lemma generate_presentation_content_offline :
  exists e d,
    _create_fallback_content someone cloud three = Ok d /\
    forall w,
      generate_presentation_content offline someone cloud three w
      = (World (deck w)
               (stdout w ++ [("Error generating content: " ++ exn_msg e)%string])%list
               (files w) (temps w),
         Ok d).
Proof.
  apply (generate_presentation_content_falls_back offline someone cloud three).
  exact (call_raises offline someone cloud three _ eq_refl).
Defined.

(** C8.  The fallback content depends on the topic and the section names
    and on nothing else.  Two calls of [_create_fallback_content] with the
    same topic and the same names return equal structures, on whichever
    generators they are made, and return them: the colour indexing of the
    loop never raises.  And two runs of [generate_presentation_content] that
    fall back return equal structures whatever made them fail and wherever
    they run: the answer of the endpoint, the exception, the generator, what
    was printed, saved or left on disk before leave no trace in the value
    returned. *)
Theorem fallback_deterministic E1 E2 self1 self2 topic names (w1 w2 : world) :
  failed E1 self1 topic names -> failed E2 self2 topic names ->
  (exists d, _create_fallback_content self1 topic names = Ok d)
  /\ _create_fallback_content self1 topic names
     = _create_fallback_content self2 topic names
  /\ snd (generate_presentation_content E1 self1 topic names w1)
     = snd (generate_presentation_content E2 self2 topic names w2).
Proof.
  intros H1 H2.
  destruct (request_raises _ _ _ _ H1) as [e1 He1].
  destruct (request_raises _ _ _ _ H2) as [e2 He2].
  rewrite (generate_on_raise E1 self1 topic names e1 w1 He1).
  rewrite (generate_on_raise E2 self2 topic names e2 w2 He2).
  rewrite (fallback_value self1), (fallback_value self2).
  split; [eexists; reflexivity | split; reflexivity].
Qed.

(** The endpoint down for one generator, and for another a reply without
    slides, in a world where a deck was saved before: the same fallback. *)
Lemma fallback_deterministic_cloud :
  (exists d, _create_fallback_content someone cloud three = Ok d)
  /\ _create_fallback_content someone cloud three
     = _create_fallback_content (Generator "gsk_9876543210" "mixtral-8x7b") cloud three
  /\ snd (generate_presentation_content offline someone cloud three fresh)
     = snd (generate_presentation_content slideless
              (Generator "gsk_9876543210" "mixtral-8x7b") cloud three
              (World default_presentation ["Ready."]
                     [("old.pptx", default_presentation)] [])).
Proof.
  apply fallback_deterministic.
  - exact (call_raises offline someone cloud three _ eq_refl).
  - exact (slides_missing slideless _ cloud three
             (object_text plain_members) (VDict [("slides", VList [])])
             eq_refl eq_refl eq_refl).
Defined.

(** Whatever the endpoint answers, a value comes back. *)
Lemma generate_presentation_content_returns E self topic names w :
  exists w' v, generate_presentation_content E self topic names w = (w', Ok v).
Proof.
  destruct (request_content E self topic names) as [v|e] eqn:H.
  - exists w, v. now apply generate_on_reply.
  - rewrite (generate_on_raise E self topic names e w H).
    eexists; eexists; reflexivity.
Qed.

End Content.

(* ================================================================= *)
(** ** Rendering *)

(** *** Work on the slide just added *)

Module Frame.
Import Py Pptx PPTGenerator Deck.

Lemma put_deck (w : world) (l : list slide) (out : list string) :
  slides (deck w) = l ->
  put w l out = World (deck w) (stdout w ++ out)%list (files w) (temps w).
Proof. destruct w as [[] ? ? ?]. simpl. now intros <-. Qed.

Lemma put_same (w : world) (l : list slide) :
  slides (deck w) = l -> put w l [] = w.
Proof.
  intros H. rewrite put_deck by exact H. destruct w. simpl.
  now rewrite List.app_nil_r.
Qed.

Lemma put_put (w : world) (l l' : list slide) (o o' : list string) :
  put (put w l o) l' o' = put w l' (o ++ o')%list.
Proof. unfold put. simpl. now rewrite List.app_assoc. Qed.

Lemma leave_nil (w : world) : leave w [] = w.
Proof. destruct w. unfold leave. simpl. now rewrite List.app_nil_r. Qed.

Lemma leave_leave (w : world) (a b : list string) :
  leave (leave w a) b = leave w (a ++ b)%list.
Proof. unfold leave. simpl. now rewrite List.app_assoc. Qed.

Lemma put_leave (w : world) (a : list string) (l : list slide) (o : list string) :
  put (leave w a) l o = leave (put w l o) a.
Proof. reflexivity. Qed.

(** Two rounds of work on the last slide, told as one. *)
Lemma leave_put_twice (w : world) (l l' : list slide) (o o' a a' : list string) :
  leave (put (leave (put w l o) a) l' o') a'
  = leave (put w l' (o ++ o')%list) (a ++ a')%list.
Proof. now rewrite put_leave, put_put, leave_leave. Qed.

Lemma update_last {A} (f : A -> A) (L : list A) (s : A) :
  update (List.length L) f (L ++ [s])%list = (L ++ [f s])%list.
Proof. induction L as [|x L IH]; simpl; [reflexivity | now rewrite IH]. Qed.

Lemma nth_last {A} (L : list A) (s : A) :
  nth_error (L ++ [s])%list (List.length L) = Some s.
Proof. induction L as [|x L IH]; simpl; [reflexivity | exact IH]. Qed.

(** Deleting the file created last gives back the files that were there. *)
Lemma unlinked_last (name : string) (l : list string) :
  unlinked name (l ++ [name])%list = l.
Proof.
  induction l as [|x l IH]; simpl.
  - now rewrite String.eqb_refl.
  - rewrite existsb_app. cbn [existsb]. rewrite String.eqb_refl.
    cbn [orb]. rewrite orb_true_r. cbn [negb]. rewrite andb_false_r.
    now rewrite IH.
Qed.

Lemma local_lift {A} (r : result A) : local (fun _ => lift r).
Proof.
  intros s. exists s, [], [], r. intros k w L Hw _. unfold lift.
  now rewrite put_same, leave_nil.
Qed.

Lemma local_ret {A} (a : A) : local (fun _ => ret a).
Proof. exact (local_lift (Ok a)). Qed.

Lemma local_raise {A} (e : exn) : local (fun _ => @raise world A e).
Proof. exact (local_lift (Raise e)). Qed.

Lemma local_print line : local (fun _ => print line).
Proof.
  intros s. exists s, [line], [], (Ok tt). intros k w L Hw _.
  unfold print. now rewrite leave_nil, put_deck.
Qed.

Lemma local_create_temp name : local (fun _ => create_temp name).
Proof.
  intros s. exists s, [], [name], (Ok tt). intros k w L Hw _.
  unfold create_temp. now rewrite put_same.
Qed.

Lemma local_on_slide f : local (fun k => on_slide k f).
Proof.
  intros s. exists (f s), [], [], (Ok tt). intros k w L Hw <-.
  rewrite leave_nil.
  unfold on_slide, set_slides, set_deck, put.
  now rewrite Hw, update_last, List.app_nil_r.
Qed.

Lemma local_read_slide {A} (f : slide -> A) (d : A) :
  local (fun k => read_slide k f d).
Proof.
  intros s. exists s, [], [], (Ok (f s)). intros k w L Hw <-.
  unfold read_slide. rewrite Hw, nth_last. now rewrite put_same, leave_nil.
Qed.

Lemma local_bind {A B} (m : nat -> IO A) (g : A -> nat -> IO B) :
  local m -> (forall a, local (g a)) ->
  local (fun k => bind (m k) (fun a => g a k)).
Proof.
  intros Hm Hg s. destruct (Hm s) as (s1 & o1 & t1 & r1 & H1).
  destruct r1 as [a | e].
  - destruct (Hg a s1) as (s2 & o2 & t2 & r2 & H2).
    exists s2, (o1 ++ o2)%list, (t1 ++ t2)%list, r2. intros k w L Hw Hk.
    unfold bind. rewrite (H1 k w L Hw Hk).
    rewrite (H2 k (leave (put w (L ++ [s1])%list o1) t1) L eq_refl Hk).
    now rewrite leave_put_twice.
  - exists s1, o1, t1, (Raise e). intros k w L Hw Hk.
    unfold bind. now rewrite (H1 k w L Hw Hk).
Qed.

Lemma local_try {A} (m : nat -> IO A) (h : exn -> nat -> IO A) :
  local m -> (forall e, local (h e)) ->
  local (fun k => try (m k) (fun e => h e k)).
Proof.
  intros Hm Hh s. destruct (Hm s) as (s1 & o1 & t1 & r1 & H1).
  destruct r1 as [a | e].
  - exists s1, o1, t1, (Ok a). intros k w L Hw Hk.
    unfold try. now rewrite (H1 k w L Hw Hk).
  - destruct (Hh e s1) as (s2 & o2 & t2 & r2 & H2).
    exists s2, (o1 ++ o2)%list, (t1 ++ t2)%list, r2. intros k w L Hw Hk.
    unfold try. rewrite (H1 k w L Hw Hk).
    rewrite (H2 k (leave (put w (L ++ [s1])%list o1) t1) L eq_refl Hk).
    now rewrite leave_put_twice.
Qed.

Lemma local_for_each {A} (l : list A) (body : A -> nat -> IO unit) :
  (forall x, local (body x)) ->
  local (fun k => for_each l (fun x => body x k)).
Proof.
  intros Hb. induction l as [|x l IH]; simpl.
  - apply local_ret.
  - exact (local_bind (body x) (fun _ k => for_each l (fun x => body x k))
                      (Hb x) (fun _ => IH)).
Qed.

Create HintDb frame.
#[export] Hint Resolve local_lift local_ret local_raise local_print
  local_create_temp local_on_slide local_read_slide : frame.

Ltac local_step :=
  lazymatch goal with
  | |- local (fun k => bind _ _) =>
      refine (local_bind _ _ _ _); [|intros ?]
  | |- local (fun k => try _ _) =>
      refine (local_try _ _ _ _); [|intros ?]
  | |- local (fun k => for_each _ _) =>
      refine (local_for_each _ _ _); intros ?
  | |- local (fun k => if ?b then _ else _) => destruct b
  | |- local (fun k => match ?x with Some _ => _ | None => _ end) => destruct x
  | |- local (fun k => let '(_, _) := ?p in _) => destruct p
  | |- local _ => solve [auto with frame]
  end.

Ltac local_auto := repeat local_step.

Lemma local_on_shape j f : local (fun k => on_shape k j f).
Proof. unfold on_shape. auto with frame. Qed.

Lemma local_on_paragraph j i f : local (fun k => on_paragraph k j i f).
Proof. unfold on_paragraph. apply local_on_shape. Qed.

Lemma local_placeholder_count : local (fun k => placeholder_count k).
Proof. unfold placeholder_count. auto with frame. Qed.

#[export] Hint Resolve local_on_shape local_on_paragraph local_placeholder_count : frame.

Lemma local_set_shape_text j v : local (fun k => set_shape_text k j v).
Proof. unfold set_shape_text. destruct v; local_auto. Qed.

Lemma local_set_paragraph_text j i v : local (fun k => set_paragraph_text k j i v).
Proof. unfold set_paragraph_text. destruct v; local_auto. Qed.

Lemma local_clear j : local (fun k => clear k j).
Proof. unfold clear. auto with frame. Qed.

Lemma local_add_paragraph j : local (fun k => add_paragraph k j).
Proof. unfold add_paragraph. local_auto. Qed.

Lemma local_add_picture p : local (fun k => add_picture k p).
Proof. unfold add_picture. auto with frame. Qed.

#[export] Hint Resolve local_set_shape_text local_set_paragraph_text local_clear
  local_add_paragraph local_add_picture : frame.

Section Builders.

Variable E : env.
Variable self : generator.

Lemma local_paint_background d c :
  local (fun k => paint_background self k d c).
Proof. unfold paint_background. local_auto. Qed.

Lemma local_content_bullet item : local (fun k => content_bullet k item).
Proof. unfold content_bullet. local_auto. Qed.

Lemma local_summary_bullet item : local (fun k => summary_bullet k item).
Proof. unfold summary_bullet. local_auto. Qed.

(** The download of line 259 creates one file at most, and never raises. *)
Lemma run_download_image (i : Z) :
  exists (left : list string) (image_path : option string),
    (forall w, download_image E self i w = (leave w left, Ok image_path))
    /\ (left = [] /\ image_path = None
        \/ exists name, left = [name]
                        /\ (image_path = None \/ image_path = Some name)).
Proof.
  assert (Hnone : exists (left : list string) (image_path : option string),
             (forall w : world,
                 (w, @Ok (option string) None) = (leave w left, Ok image_path))
             /\ (left = [] /\ image_path = None
                 \/ exists name, left = [name]
                                 /\ (image_path = None \/ image_path = Some name))).
  { exists [], None. split; [intros w; now rewrite leave_nil | now left]. }
  unfold download_image, try, bind, lift, ret, create_temp.
  destruct (requests_get E _) as [status|e]; [|exact Hnone].
  destruct (status =? 200)%Z; [|exact Hnone].
  destruct (temp_name E i) as [name|e]; [|exact Hnone].
  destruct (temp_write E name) as [[]|e].
  - exists [name], (Some name). split; [reflexivity|].
    right. exists name. split; [reflexivity | now right].
  - exists [name], None. split; [reflexivity|].
    right. exists name. split; [reflexivity | now left].
Qed.

(** The picture step as a whole: what it does to the last slide, what it
    prints and which file it leaves. *)
Lemma local_place_picture (i : Z) : local (fun k => place_picture E self k i).
Proof.
  intros s. destruct (run_download_image i) as (left & ip & Hd & Hshape).
  assert (Hskip : forall k, steps k (fun w => (leave w left, @Ok unit tt))
                                  s s [] left (Ok tt)).
  { intros k w L Hw _. now rewrite put_same. }
  destruct ip as [p|].
  2:{ exists s, [], left, (Ok tt). intros k w L Hw Hk.
      unfold place_picture, bind. rewrite Hd. now apply (Hskip k). }
  destruct Hshape as [[_ [=]] | (name & -> & [[=] | [= ->]])].
  destruct (negb (String.eqb name EmptyString)) eqn:Hname.
  2:{ exists s, [], [name], (Ok tt). intros k w L Hw Hk.
      unfold place_picture, bind. rewrite Hd, Hname. now apply (Hskip k). }
  destruct (read_image E name) as [[]|e] eqn:Hread.
  2:{ exists s, [("Image error: " ++ exn_msg e)%string], [name], (Ok tt).
      intros k w L Hw Hk.
      unfold place_picture, bind at 1. rewrite Hd, Hname.
      unfold try, bind, lift. rewrite Hread. unfold print.
      now rewrite <- put_leave, put_deck. }
  destruct (os_unlink E name) as [[]|e] eqn:Hunlink.
  - exists (set_pictures (sl_pictures s
                          ++ [Picture name (Inches 70) (Inches 20)
                                      (Inches 25) (Inches 20)])%list s),
           [], [], (Ok tt).
    intros k w L Hw <-.
    unfold place_picture, bind at 1. rewrite Hd, Hname.
    unfold try, bind, lift. rewrite Hread.
    unfold add_picture, on_slide. rewrite Hunlink.
    unfold delete_temp, set_slides, set_deck, leave, put.
    cbn [deck stdout files temps slides slide_width slide_height].
    now rewrite Hw, update_last, unlinked_last, !List.app_nil_r.
  - exists (set_pictures (sl_pictures s
                          ++ [Picture name (Inches 70) (Inches 20)
                                      (Inches 25) (Inches 20)])%list s),
           [("Image error: " ++ exn_msg e)%string], [name], (Ok tt).
    intros k w L Hw <-.
    unfold place_picture, bind at 1. rewrite Hd, Hname.
    unfold try, bind, lift. rewrite Hread.
    unfold add_picture, on_slide. rewrite Hunlink.
    unfold print, set_slides, set_deck, leave, put.
    cbn [deck stdout files temps slides slide_width slide_height].
    now rewrite Hw, update_last.
Qed.

Hint Resolve local_paint_background local_content_bullet local_summary_bullet
  local_place_picture : frame.

(** A new slide followed by work on that slide adds exactly one slide. *)
Lemma appends_add_slide {A} (layout n : nat) (body : nat -> IO A) :
  local body -> appends 1 (bind (add_slide layout n) body).
Proof.
  intros Hb.
  destruct (Hb (Slide layout Inherited (repeat empty_shape n) []))
    as (s' & out & left & r & H).
  exists [s'], out, left, r. split; [reflexivity|]. intros w.
  unfold bind, add_slide.
  rewrite (H (List.length (slides (deck w)))
             (set_slides (slides (deck w)
                          ++ [Slide layout Inherited (repeat empty_shape n) []])%list w)
             (slides (deck w)) eq_refl eq_refl).
  unfold put, set_slides, set_deck. reflexivity.
Qed.

Lemma appends_raise {A} (e : exn) : appends 0 (@lift world A (Raise e)).
Proof.
  exists [], [], [], (Raise e). split; [reflexivity|]. intros w.
  unfold lift. rewrite List.app_nil_r. now rewrite put_same, leave_nil.
Qed.

Lemma appends_title d : appends 1 (_create_title_slide self d).
Proof.
  unfold _create_title_slide.
  change (index slide_layouts 0) with (@Ok nat 2%nat).
  apply (appends_add_slide 0 2). local_auto.
Qed.

Lemma appends_content d i : appends 1 (_create_content_slide E self d i).
Proof.
  unfold _create_content_slide.
  change (index slide_layouts 1) with (@Ok nat 2%nat).
  apply (appends_add_slide 1 2). local_auto.
Qed.

Lemma appends_summary d : appends 1 (_create_summary_slide self d).
Proof.
  unfold _create_summary_slide.
  change (index slide_layouts 1) with (@Ok nat 2%nat).
  apply (appends_add_slide 1 2). local_auto.
Qed.

(** A descriptor that is a dict yields exactly one slide, rendered in full
    or as far as its builder got. *)
Lemma appends_create_slide_dict d i : appends 1 (create_slide E self (VDict d) i).
Proof.
  unfold create_slide. cbn [get].
  destruct (lookup d "slide_type") as [v|];
    change (bind (lift (Ok ?x)) ?k) with (fun w : world => k x w); cbn beta.
  - destruct (eq_str v "title"); [apply appends_title|].
    destruct (eq_str v "summary"); [apply appends_summary | apply appends_content].
  - cbn [eq_str String.eqb Ascii.eqb Bool.eqb]. apply appends_content.
Qed.

Lemma appends_create_slide d i :
  exists n, appends n (create_slide E self d i).
Proof.
  destruct d; try (exists 0%nat; apply appends_raise).
  exists 1%nat. apply appends_create_slide_dict.
Qed.

(** One round of the slide loop, told by what the descriptor does alone. *)
Lemma render_alone (item : Z * value) (w : world) :
  render E self item w
  = (leave (put w (slides (deck w) ++ slides_of E self item)%list
                (lines_of E self item))
           (left_of E self item),
     Ok tt).
Proof.
  destruct item as [i d].
  destruct (appends_create_slide d i) as (n & new & out & left & r & _ & H).
  unfold slides_of, lines_of, left_of, alone, render, try. cbn [fst snd].
  rewrite (H w), (H fresh).
  cbn [fst snd put leave deck slides stdout temps fresh List.app].
  destruct r as [[] | e].
  - now rewrite List.app_nil_r.
  - unfold print, put, leave, fresh, error_line.
    cbn [deck stdout files temps slides default_presentation List.app].
    now rewrite List.app_assoc.
Qed.

Lemma for_each_render (items : list (Z * value)) (w : world) :
  for_each items (render E self) w
  = (leave (put w (slides (deck w) ++ flat_map (slides_of E self) items)%list
                (flat_map (lines_of E self) items))
           (flat_map (left_of E self) items),
     Ok tt).
Proof.
  revert w. induction items as [|item items IH]; intros w; simpl.
  - unfold ret. now rewrite List.app_nil_r, put_same, leave_nil.
  - unfold bind. rewrite render_alone, IH, leave_put_twice.
    cbn [put leave deck slides]. now rewrite List.app_assoc.
Qed.

Lemma slides_of_dict i d : List.length (slides_of E self (i, VDict d)) = 1%nat.
Proof.
  destruct (appends_create_slide_dict d i) as (new & out & left & r & Hn & H).
  unfold slides_of, alone. cbn [fst snd]. now rewrite (H fresh).
Qed.

Lemma alone_ok_dict i x : snd (alone E self (i, x)) = Ok tt -> is_dict x = true.
Proof. destruct x; try reflexivity; discriminate. Qed.

Lemma length_slides_of_dicts (k : Z) (ds : list value) :
  forallb is_dict ds = true ->
  List.length (flat_map (slides_of E self) (enumerate_from k ds)) = List.length ds.
Proof.
  revert k. induction ds as [|x ds IH]; intros k; simpl; [reflexivity|].
  intros [Hx Hds]%andb_true_iff. rewrite List.length_app, (IH _ Hds).
  destruct x; try discriminate. now rewrite slides_of_dict.
Qed.

(** The whole of [create_powerpoint] on a list of descriptors. *)
Lemma run_create_powerpoint (data : value) (ds : list value)
      (path : string) (w : world) :
  getitem data "slides" = Ok (VList ds) ->
  create_powerpoint E self data path w
  = match save_file E path with
    | Ok _ =>
        (World (built E self ds)
               (stdout w ++ flat_map (lines_of E self) (enumerate ds))%list
               ((path, built E self ds) :: files w)
               (temps w ++ flat_map (left_of E self) (enumerate ds))%list,
         Ok tt)
    | Raise e =>
        (World (built E self ds)
               (stdout w ++ flat_map (lines_of E self) (enumerate ds))%list
               (files w)
               (temps w ++ flat_map (left_of E self) (enumerate ds))%list,
         Raise e)
    end.
Proof.
  intros Hd. unfold create_powerpoint.
  unfold bind at 1. unfold new_presentation at 1.
  unfold bind at 1. unfold set_slide_width at 1.
  unfold bind at 1. unfold set_slide_height at 1.
  unfold bind at 1. unfold lift at 1. rewrite Hd.
  unfold bind at 1. unfold lift at 1. cbn [iter].
  unfold bind at 1. rewrite for_each_render.
  unfold save. destruct (save_file E path); reflexivity.
Qed.

End Builders.

End Frame.

(** *** The slide loop, the colours, the dispatch *)

Module Rendering.
Import Py Pptx PPTGenerator Templated Deck Samples Fallback Content Frame.

Lemma in_flat_map_split {A B} (f : A -> list B) (x : A) (l : list A) :
  In x l -> exists before after, flat_map f l = (before ++ f x ++ after)%list.
Proof.
  induction l as [|y l IH]; simpl; [contradiction|].
  intros [-> | Hx].
  - exists [], (flat_map f l). reflexivity.
  - destruct (IH Hx) as (b & a & ->).
    exists (f y ++ b)%list, a. now rewrite <- List.app_assoc.
Qed.

Lemma length_slides_of (i : Z) (x : value) E self :
  List.length (slides_of E self (i, x)) = if is_dict x then 1%nat else 0%nat.
Proof. destruct x; try reflexivity. apply slides_of_dict. Qed.

(** C5, as amended.  Whatever the descriptors, the loop of
    [create_powerpoint] visits every one of them: the deck it builds is, in
    order, what each descriptor renders on its own, and the lines printed
    are, in order, those of each round.  A descriptor whose rendering raises
    has its error printed and stops nothing after it; a descriptor whose
    rendering succeeds has its slide in the deck.  But the deck has one slide
    for every descriptor that is a dict, whether its rendering succeeded or
    raised, and none for any other descriptor.  The deck is saved under the
    given path when that path can be written; when it cannot, the exception
    of the save leaves [create_powerpoint] and nothing is saved. *)
Theorem create_powerpoint_continues E self (data : value) (ds : list value)
        (path : string) (w : world) :
  getitem data "slides" = Ok (VList ds) ->
  let run := create_powerpoint E self data path w in
  let d := Presentation (Inches 100) (Inches 75)
                        (flat_map (slides_of E self) (enumerate ds)) in
  let out := (stdout w ++ flat_map (lines_of E self) (enumerate ds))%list in
  deck (fst run) = d
  /\ stdout (fst run) = out
  /\ (forall i x e, In (i, x) (enumerate ds) ->
        snd (alone E self (i, x)) = Raise e -> In (error_line i e) out)
  /\ (forall i x, In (i, x) (enumerate ds) ->
        snd (alone E self (i, x)) = Ok tt ->
        exists before after,
          slides d = (before ++ slides_of E self (i, x) ++ after)%list)
  /\ (forall i x, In (i, x) (enumerate ds) ->
        List.length (slides_of E self (i, x))
        = if is_dict x then 1%nat else 0%nat)
  /\ match save_file E path with
     | Ok _ => snd run = Ok tt /\ files (fst run) = (path, d) :: files w
     | Raise e => snd run = Raise e /\ files (fst run) = files w
     end.
Proof.
  intros Hd run d out. subst run.
  rewrite (run_create_powerpoint E self data ds path w Hd).
  split; [|split; [|split; [|split; [|split]]]].
  - now destruct (save_file E path).
  - now destruct (save_file E path).
  - intros i x e Hin He. apply in_or_app. right.
    apply in_flat_map. exists (i, x). split; [exact Hin|].
    unfold lines_of. rewrite He. apply in_or_app. right. now left.
  - intros i x Hin _.
    exact (in_flat_map_split (slides_of E self) (i, x) _ Hin).
  - intros i x _. apply length_slides_of.
  - now destruct (save_file E path).
Qed.

(** Three descriptors, the second a number: two slides are saved, and the one
    line printed names slide 2. *)
Lemma create_powerpoint_skips_the_hole :
  let run := create_powerpoint offline someone (VDict [("slides", VList holed)])
                               "deck.pptx" fresh in
  exists d,
    deck (fst run) = d
    /\ List.length (slides d) = 2%nat
    /\ stdout (fst run)
       = ["Error creating slide 2: 'int' object has no attribute 'get'"]
    /\ snd run = Ok tt
    /\ files (fst run) = [("deck.pptx", d)].
Proof.
  destruct (create_powerpoint_continues offline someone
              (VDict [("slides", VList holed)]) holed "deck.pptx" fresh eq_refl)
    as (Hdeck & Hout & _ & _ & _ & Hsave).
  cbv zeta. eexists. split; [exact Hdeck|]. split; [reflexivity|].
  split; [rewrite Hout; reflexivity|]. exact Hsave.
Defined.

(** C5, as stated, fails twice.  Of three dict descriptors without a title
    none is rendered with success, each round prints its error, and yet
    the deck saved has three slides: the slide a builder added before it
    raised stays in the deck, its background painted and nothing written on
    it.  And on a disk that cannot be written nothing is saved at all: the
    exception of line 323 leaves [create_powerpoint]. *)
Lemma create_powerpoint_keeps_failed_slides :
  (map (fun item => snd (alone offline someone item)) (enumerate untitled)
   = [ Raise (Exn KeyError "'title'"); Raise (Exn KeyError "'title'");
       Raise (Exn KeyError "'title'") ]
   /\ exists d,
        create_powerpoint offline someone (VDict [("slides", VList untitled)])
                          "deck.pptx" fresh
        = (World d [ "Error creating slide 1: 'title'";
                     "Error creating slide 2: 'title'";
                     "Error creating slide 3: 'title'" ]
                 [("deck.pptx", d)] [],
           Ok tt)
        /\ List.length (slides d) = 3%nat
        /\ map (fun s => map sh_paragraphs (sl_placeholders s)) (slides d)
           = [ [[empty_paragraph]; [empty_paragraph]];
               [[empty_paragraph]; [empty_paragraph]];
               [[empty_paragraph]; [empty_paragraph]] ])
  /\ (snd (create_powerpoint read_only someone (VDict [("slides", VList holed)])
                             "deck.pptx" fresh)
      = Raise (Exn OSError "[Errno 30] Read-only file system: 'deck.pptx'")
      /\ files (fst (create_powerpoint read_only someone
                       (VDict [("slides", VList holed)]) "deck.pptx" fresh))
         = []).
Proof.
  split; [split|split].
  - reflexivity.
  - eexists. split; [reflexivity|]. split; reflexivity.
  - reflexivity.
  - reflexivity.
Qed.

(** C7.  A colour name outside the five known ones gets white, and nothing
    is raised. *)
Theorem get_background_color_default (self : generator) (color_name : string) :
  ~ In color_name ["blue"; "light_blue"; "white"; "dark"; "gradient"] ->
  get_background_color self (VStr color_name) = Ok (RGB 255 255 255).
Proof.
  intros H. unfold get_background_color.
  change (lookup _ "white") with (Some (RGB 255 255 255)).
  cbn [rbind lookup].
  repeat match goal with
         | |- context [String.eqb ?a color_name] =>
             destruct (String.eqb_spec a color_name);
             [exfalso; apply H; subst; simpl; tauto|]
         end.
  reflexivity.
Qed.

(** Purple is none of the five. *)
Lemma get_background_color_purple :
  get_background_color someone (VStr "purple") = Ok (RGB 255 255 255).
Proof.
  apply get_background_color_default.
  simpl. intros [H | [H | [H | [H | [H | []]]]]]; discriminate H.
Defined.

Lemma eq_str_false (v : value) (s : string) : v <> VStr s -> eq_str v s = false.
Proof.
  destruct v; try reflexivity. simpl. intros H.
  destruct (String.eqb_spec s0 s); [subst; contradiction | reflexivity].
Qed.

(** C9.  A descriptor without [slide_type], or with any value there other
    than the strings title and summary, is built by the content-slide
    builder: [create_slide] is that builder on it, so whatever fails then
    fails in the builder and not in the dispatch. *)
Theorem create_slide_defaults_to_content E self (d : dict) (i : Z) :
  (forall v, lookup d "slide_type" = Some v ->
             v <> VStr "title" /\ v <> VStr "summary") ->
  create_slide E self (VDict d) i = _create_content_slide E self (VDict d) i.
Proof.
  intros H. unfold create_slide. cbn [get].
  destruct (lookup d "slide_type") as [v|].
  - destruct (H v eq_refl) as [Ht Hs].
    unfold bind at 1, lift at 1.
    rewrite (eq_str_false _ _ Ht), (eq_str_false _ _ Hs). reflexivity.
  - reflexivity.
Qed.

(** A descriptor of type appendix goes to the content builder. *)
Lemma create_slide_appendix :
  create_slide offline someone (VDict odd_slide) 3
  = _create_content_slide offline someone (VDict odd_slide) 3.
Proof.
  apply create_slide_defaults_to_content.
  intros v [= <-]. split; discriminate.
Defined.

Lemma fallback_slides_dicts (topic : string) (names : list string) :
  forallb is_dict (fallback_slides topic names) = true.
Proof.
  unfold fallback_slides. cbn [forallb is_dict title_slide andb].
  rewrite forallb_app. apply andb_true_iff. split; [|reflexivity].
  induction (enumerate names) as [|item l IH]; [reflexivity | exact IH].
Qed.

(** On the fallback path, and when the given path can be written, the saved
    deck has one slide per section and two more, at the fixed page size. *)
Theorem fallback_deck_complete E self topic names (path : string) (w : world) :
  failed E self topic names -> path <> "" -> save_file E path = Ok tt ->
  exists d,
    snd (create_presentation E self topic names (Some path) w) = Ok path
    /\ saved (files (fst (create_presentation E self topic names (Some path) w))) path
       = Some d
    /\ List.length (slides d) = (List.length names + 2)%nat
    /\ slide_width d = Inches 100 /\ slide_height d = Inches 75.
Proof.
  intros Hf Hp Hs. destruct (request_raises _ _ _ _ Hf) as [e He].
  pose (d := built E self (fallback_slides topic names)).
  assert (Hrun : exists out left,
             create_presentation E self topic names (Some path) w
             = (World d out ((path, d) :: files w) left, Ok path)).
  { unfold create_presentation. unfold bind at 1.
    rewrite (generate_on_raise E self topic names e w He).
    destruct (String.eqb_spec path "") as [|_]; [contradiction|]. cbn [negb].
    unfold bind at 1.
    rewrite (run_create_powerpoint E self _ (fallback_slides topic names))
      by reflexivity.
    rewrite Hs. eexists. eexists. reflexivity. }
  destruct Hrun as (out & left & ->). exists d. cbn [fst snd files saved].
  rewrite String.eqb_refl. repeat split.
  unfold d, built, enumerate. cbn [slides].
  rewrite length_slides_of_dicts by apply fallback_slides_dicts.
  apply length_fallback_slides.
Qed.

(** Cloud Security in three sections, endpoint down: five slides. *)
Lemma fallback_deck_cloud :
  exists d,
    snd (create_presentation offline someone cloud three (Some "deck.pptx") fresh)
    = Ok "deck.pptx"
    /\ saved (files (fst (create_presentation offline someone cloud three
                            (Some "deck.pptx") fresh))) "deck.pptx"
       = Some d
    /\ List.length (slides d) = 5%nat
    /\ slide_width d = Inches 100 /\ slide_height d = Inches 75.
Proof.
  apply (fallback_deck_complete offline someone cloud three "deck.pptx" fresh).
  - exact (call_raises offline someone cloud three _ eq_refl).
  - discriminate.
  - reflexivity.
Defined.

(** C4 fails on the reply path.  The request names three sections and the
    reply describes two slides: the saved deck, at the fixed page size, has
    two slides, while the form reports five. *)
Theorem deck_follows_reply :
  let run := create_presentation (replying short_reply short_value) someone
                                 cloud three (Some "deck.pptx") fresh in
  exists d,
    snd run = Ok "deck.pptx"
    /\ saved (files (fst run)) "deck.pptx" = Some d
    /\ List.length (slides d) = 2%nat
    /\ App.total_slides three = 5%Z
    /\ slide_width d = Inches 100 /\ slide_height d = Inches 75.
Proof.
  vm_compute. eexists. repeat split.
Qed.

End Rendering.

(* ================================================================= *)
(** ** The form *)

Module Form.
Import Py Pptx PPTGenerator Samples App.

Lemma truthy_and_ (a b : value) : truthy (and_ a b) = truthy a && truthy b.
Proof. unfold and_. destruct (truthy a) eqn:Ha; [reflexivity | exact Ha]. Qed.

Lemma forallb_nonblank (l : list string) :
  forallb (fun section => truthy (VStr (strip section))) l = true
  <-> Forall (fun section => strip section <> "") l.
Proof.
  rewrite forallb_forall, Forall_forall.
  split; intros H x Hx; specialize (H x Hx);
    cbn [truthy] in *; destruct (String.eqb_spec (strip x) "");
    try congruence; try reflexivity; try discriminate.
Qed.

Lemma truthy_is_valid topic key sections :
  truthy (is_valid topic key sections) = true
  <-> (3 <= len (strip topic))%Z /\ (10 <= len (strip key))%Z
      /\ Forall (fun section => strip section <> "") sections.
Proof.
  unfold is_valid. rewrite !truthy_and_. cbn [truthy].
  rewrite !andb_true_iff, !Z.leb_le, forallb_nonblank, !negb_true_iff.
  split.
  - intros [[[[_ Ht] _] Hk] Hs]. auto.
  - intros (Ht & Hk & Hs). repeat split; auto.
    + destruct (String.eqb_spec topic ""); [subst; now compute in Ht | reflexivity].
    + destruct (String.eqb_spec key ""); [subst; now compute in Hk | reflexivity].
Qed.

(** C6.  The submit control is enabled exactly when the trimmed topic has
    three characters or more, the trimmed key ten or more, no section title
    is blank after trimming, and no generation is in progress; a blank
    section title alone keeps it disabled. *)
Theorem submit_enabled_iff topic key sections (s : session) :
  (submit_disabled topic key sections s = false
   <-> (3 <= len (strip topic))%Z /\ (10 <= len (strip key))%Z
       /\ Forall (fun section => strip section <> "") sections
       /\ generating s = false)
  /\ ((exists section, In section sections /\ strip section = "") ->
      submit_disabled topic key sections s = true).
Proof.
  unfold submit_disabled. split.
  - rewrite orb_false_iff, negb_false_iff, truthy_is_valid. tauto.
  - intros (x & Hx & Hb). apply orb_true_iff. left. apply negb_true_iff.
    apply not_true_is_false. rewrite truthy_is_valid. intros (_ & _ & H).
    rewrite Forall_forall in H. exact (H x Hx Hb).
Qed.

(** C10.  [generate_presentation] leaves the [generating] flag False on both
    of its ways out: when [create_presentation] returns a path, which it
    passes on, and when it raises, where it returns None. *)
Theorem generate_presentation_resets E ts topic sections key model (a : app) :
  let run := generate_presentation E ts topic sections key model a in
  generating (state (fst run)) = false
  /\ match snd (create_presentation E (Generator key model) topic sections
                  (Some ("professional_" ++ replace topic " " "_" ++ "_" ++ ts
                         ++ ".pptx"))
                  (outside a)) with
     | Ok path => snd run = Some path
     | Raise _ => snd run = None
     end.
Proof.
  unfold generate_presentation.
  destruct (create_presentation _ _ _ _ _ _) as [w [path|e]]; cbn; auto.
Qed.

(** Both ways out are taken: the fallback deck is saved when the endpoint is
    down, and a reply whose [slides] is a number makes the slide loop raise. *)
Example generate_presentation_returns_path :
  let run := generate_presentation offline "20261103_101500" cloud three
               "gsk_0123456789" "llama-3.1-8b-instant"
               (App initial_session Deck.fresh []) in
  snd run = Some "professional_Cloud_Security_20261103_101500.pptx"
  /\ generating (state (fst run)) = false
  /\ presentation_generated (state (fst run)) = true
  /\ errors (fst run) = [].
Proof. vm_compute. repeat split. Qed.

Example generate_presentation_returns_none :
  let run := generate_presentation (replying scalar_reply scalar_value)
               "20261103_101500" cloud three
               "gsk_0123456789" "llama-3.1-8b-instant"
               (App initial_session Deck.fresh []) in
  snd run = None
  /\ generating (state (fst run)) = false
  /\ presentation_generated (state (fst run)) = false
  /\ errors (fst run)
     = ["Error generating presentation: 'int' object is not iterable"].
Proof. vm_compute. repeat split. Qed.

End Form.

(* ================================================================= *)
(** ** Further properties of ppt_generator.py *)

Module Outcomes.
Import Py Pptx PPTGenerator Templated Deck Samples Fallback Content Frame More.

(** The two ways [generate_presentation_content] ends, and no third: either
    the request failed in one of the ways of [failed] and the templated deck
    comes back, or the reply parsed to an object with a non-empty [slides],
    and then that object comes back as parsed, with nothing printed. *)
Theorem generate_presentation_content_two_ways E self topic names (w : world) :
  (failed E self topic names
   /\ snd (generate_presentation_content E self topic names w)
      = Ok (VDict [("title", VStr topic);
                   ("slides", VList (fallback_slides topic names))]))
  \/ (exists text v,
        chat E (api_key self) (model_name self) topic names = Ok (Some text)
        /\ parsed E text = Ok v
        /\ nonempty_slides v = true
        /\ generate_presentation_content E self topic names w = (w, Ok v)).
Proof.
  destruct (chat E (api_key self) (model_name self) topic names)
    as [[text|] | e] eqn:Hc.
  2:{ left. assert (Hf : failed E self topic names) by now apply no_content.
      split; [exact Hf|]. destruct (request_raises _ _ _ _ Hf) as [e He].
      now rewrite (generate_on_raise _ _ _ _ e w He). }
  2:{ left. assert (Hf : failed E self topic names) by now apply (call_raises _ _ _ _ e).
      split; [exact Hf|]. destruct (request_raises _ _ _ _ Hf) as [e' He].
      now rewrite (generate_on_raise _ _ _ _ e' w He). }
  destruct (parsed E text) as [v | e] eqn:Hp.
  2:{ left. assert (Hf : failed E self topic names)
        by now apply (parse_fails _ _ _ _ text e).
      split; [exact Hf|]. destruct (request_raises _ _ _ _ Hf) as [e' He].
      now rewrite (generate_on_raise _ _ _ _ e' w He). }
  destruct (nonempty_slides v) eqn:Hv.
  2:{ left. assert (Hf : failed E self topic names)
        by now apply (slides_missing _ _ _ _ text v).
      split; [exact Hf|]. destruct (request_raises _ _ _ _ Hf) as [e' He].
      now rewrite (generate_on_raise _ _ _ _ e' w He). }
  right. exists text, v. repeat split; try assumption.
  apply generate_on_reply. unfold request_content. rewrite Hc. cbn [rbind].
  unfold parsed in Hp.
  destruct (clean_json (strip text)) as [c|]; cbn [rbind] in *; [|discriminate].
  rewrite Hp. cbn [rbind].
  destruct v; try discriminate Hv. cbn [nonempty_slides has getitem] in *.
  destruct (lookup d "slides") as [x|]; [|discriminate].
  cbn [negb rbind]. now rewrite Hv.
Qed.

End Outcomes.

Module Saving.
Import Py Pptx PPTGenerator Templated Deck Samples Fallback Content Frame More.

Lemma slides_of_other E self (i : Z) (x : value) :
  is_dict x = false -> slides_of E self (i, x) = [].
Proof. destruct x; try discriminate; reflexivity. Qed.

Lemma length_slides_of_any E self (k : Z) (ds : list value) :
  List.length (flat_map (slides_of E self) (enumerate_from k ds))
  = List.length (filter is_dict ds).
Proof.
  revert k. induction ds as [|x ds IH]; intros k; simpl; [reflexivity|].
  rewrite List.length_app, IH. destruct (is_dict x) eqn:Hx.
  - destruct x; try discriminate. now rewrite slides_of_dict.
  - now rewrite slides_of_other.
Qed.

(** [create_powerpoint] on whatever the loop can iterate over. *)
Lemma run_create_powerpoint_over E self (data : value) (items : list value)
      (path : string) (w : world) :
  descriptors data = Ok items ->
  create_powerpoint E self data path w
  = match save_file E path with
    | Ok _ =>
        (World (built E self items)
               (stdout w ++ flat_map (lines_of E self) (enumerate items))%list
               ((path, built E self items) :: files w)
               (temps w ++ flat_map (left_of E self) (enumerate items))%list,
         Ok tt)
    | Raise e =>
        (World (built E self items)
               (stdout w ++ flat_map (lines_of E self) (enumerate items))%list
               (files w)
               (temps w ++ flat_map (left_of E self) (enumerate items))%list,
         Raise e)
    end.
Proof.
  unfold descriptors. intros Hd. unfold create_powerpoint.
  unfold bind at 1. unfold new_presentation at 1.
  unfold bind at 1. unfold set_slide_width at 1.
  unfold bind at 1. unfold set_slide_height at 1.
  unfold bind at 1. unfold lift at 1.
  destruct (getitem data "slides") as [sl|]; cbn [rbind] in Hd; [|discriminate].
  unfold bind at 1. unfold lift at 1. rewrite Hd.
  unfold bind at 1. rewrite for_each_render.
  unfold save. destruct (save_file E path); reflexivity.
Qed.

Lemma run_create_powerpoint_stopped E self (data : value) (e : exn)
      (path : string) (w : world) :
  descriptors data = Raise e ->
  create_powerpoint E self data path w
  = (World (Presentation (Inches 100) (Inches 75) []) (stdout w) (files w)
           (temps w),
     Raise e).
Proof.
  unfold descriptors. intros Hd. unfold create_powerpoint.
  unfold bind at 1. unfold new_presentation at 1.
  unfold bind at 1. unfold set_slide_width at 1.
  unfold bind at 1. unfold set_slide_height at 1.
  unfold bind at 1. unfold lift at 1.
  destruct (getitem data "slides") as [sl|]; cbn [rbind] in Hd.
  - unfold bind at 1. unfold lift at 1. rewrite Hd. reflexivity.
  - now inversion Hd.
Qed.

(** [create_powerpoint] ends normally exactly when [presentation_data] has a
    [slides] entry that can be iterated over (a list, a str, a dict) and the
    path can be written; the deck it has built is then the one saved under
    the path.  When it raises, no deck is saved: either the entry is missing
    or cannot be iterated over, and then that exception comes out before
    anything is printed or any temporary file created, or the loop ran and
    it is the exception of the save that comes out.  Either way the decks
    saved under other paths are as they were. *)
Theorem create_powerpoint_saves_or_raises E self (data : value)
        (path : string) (w : world) :
  let run := create_powerpoint E self data path w in
  (snd run = Ok tt
   <-> (exists items, descriptors data = Ok items) /\ save_file E path = Ok tt)
  /\ (forall e, snd run = Raise e ->
        files (fst run) = files w
        /\ (descriptors data = Raise e
            /\ stdout (fst run) = stdout w /\ temps (fst run) = temps w
            \/ (exists items, descriptors data = Ok items)
               /\ save_file E path = Raise e))
  /\ (snd run = Ok tt -> saved (files (fst run)) path = Some (deck (fst run)))
  /\ (forall other, other <> path ->
        saved (files (fst run)) other = saved (files w) other).
Proof.
  cbv zeta. destruct (descriptors data) as [items | e] eqn:Hd.
  - rewrite (run_create_powerpoint_over E self data items path w Hd).
    destruct (save_file E path) as [[]|e];
      cbn [fst snd files stdout deck temps saved].
    + rewrite String.eqb_refl. split; [|split; [|split]].
      * split; [intros _; split; [now exists items | reflexivity] | reflexivity].
      * discriminate.
      * reflexivity.
      * intros other Ho. destruct (String.eqb_spec path other); congruence.
    + split; [|split; [|split]].
      * split; [discriminate | intros [_ H]; discriminate H].
      * intros e' [= <-]. split; [reflexivity|]. right.
        split; [now exists items | reflexivity].
      * discriminate.
      * reflexivity.
  - rewrite (run_create_powerpoint_stopped E self data e path w Hd).
    cbn [fst snd files stdout deck temps].
    split; [|split; [|split]].
    + split; [discriminate | intros [[items Hi] _]; discriminate Hi].
    + intros e' [= <-]. split; [reflexivity|]. left. now repeat split.
    + discriminate.
    + reflexivity.
Qed.

(** The deck [create_powerpoint] builds has one slide for each descriptor
    that is a dict, whether its builder finished or raised on the way, and
    none for any other descriptor; and it is this deck that is saved when
    the path can be written. *)
Theorem one_slide_per_dict E self (data : value) (ds : list value)
        (path : string) (w : world) :
  getitem data "slides" = Ok (VList ds) ->
  let run := create_powerpoint E self data path w in
  List.length (slides (deck (fst run))) = List.length (filter is_dict ds)
  /\ (save_file E path = Ok tt ->
      saved (files (fst run)) path = Some (deck (fst run))).
Proof.
  intros Hd. cbv zeta.
  rewrite (run_create_powerpoint_over E self data ds path w)
    by (unfold descriptors; now rewrite Hd).
  destruct (save_file E path) as [[]|e]; cbn [fst files deck saved built slides].
  - rewrite String.eqb_refl. split; [apply length_slides_of_any | reflexivity].
  - split; [apply length_slides_of_any | discriminate].
Qed.

(** Three descriptors, the second a number: two slides, saved. *)
Lemma one_slide_per_dict_holed :
  let run := create_powerpoint offline someone (VDict [("slides", VList holed)])
                               "deck.pptx" fresh in
  List.length (slides (deck (fst run))) = 2%nat
  /\ (save_file offline "deck.pptx" = Ok tt ->
      saved (files (fst run)) "deck.pptx" = Some (deck (fst run))).
Proof.
  exact (one_slide_per_dict offline someone (VDict [("slides", VList holed)])
                            holed "deck.pptx" fresh eq_refl).
Defined.

End Saving.

Module Images.
Import Py Pptx PPTGenerator Templated Deck Samples Frame More.

Lemma same_but_pictures_refl (w : world) : same_but_pictures w w.
Proof. repeat split. Qed.

Lemma same_but_pictures_sym (w1 w2 : world) :
  same_but_pictures w1 w2 -> same_but_pictures w2 w1.
Proof. intros (H1 & H2 & H3 & H4). repeat split; congruence. Qed.

Lemma same_but_pictures_trans (w1 w2 w3 : world) :
  same_but_pictures w1 w2 -> same_but_pictures w2 w3 -> same_but_pictures w1 w3.
Proof.
  intros (H1 & H2 & H3 & H4) (G1 & G2 & G3 & G4). repeat split; congruence.
Qed.

Lemma without_pictures_update (k : nat) (f : slide -> slide) (l : list slide) :
  (forall s, without_pictures (f s) = without_pictures s) ->
  map without_pictures (update k f l) = map without_pictures l.
Proof.
  intros Hf. revert k. induction l as [|s l IH]; intros [|k]; simpl;
    try reflexivity.
  - now rewrite Hf.
  - now rewrite IH.
Qed.

Lemma same_but_pictures_print (w : world) (line : string) :
  same_but_pictures w (fst (print line w)).
Proof. repeat split. Qed.

(** The picture step never raises, and changes pictures and printed lines
    only. *)
Lemma same_but_pictures_leave (w : world) (left : list string) :
  same_but_pictures w (leave w left).
Proof. repeat split. Qed.

Lemma place_picture_ok E self (slide : nat) (i : Z) (w : world) :
  snd (place_picture E self slide i w) = Ok tt
  /\ same_but_pictures w (fst (place_picture E self slide i w)).
Proof.
  destruct (run_download_image E self i) as (left & ip & Hd & _).
  unfold place_picture, try, bind, lift. rewrite Hd.
  destruct ip as [p|];
    [|split; [reflexivity | apply same_but_pictures_leave]].
  destruct (negb (String.eqb p EmptyString));
    [|split; [reflexivity | apply same_but_pictures_leave]].
  destruct (read_image E p) as [[]|e]; [|split; [reflexivity | repeat split]].
  unfold add_picture, on_slide.
  assert (Hadd : forall ts out,
            same_but_pictures w
              (World (deck (set_slides (update slide
                  (fun s => set_pictures (sl_pictures s ++ [Picture p (Inches 70)
                     (Inches 20) (Inches 25) (Inches 20)])%list s)
                  (slides (deck (leave w left)))) (leave w left)))
                 out (files w) ts)).
  { intros ts out. repeat split. cbn [set_slides set_deck deck slides leave].
    symmetry. now apply without_pictures_update. }
  destruct (os_unlink E p) as [[]|e]; (split; [reflexivity | apply Hadd]).
Qed.

Lemma alike_refl {A} (m : IO A) : alike m m.
Proof. intros w. split; [reflexivity | apply same_but_pictures_refl]. Qed.

Lemma alike_bind {A B} (m : IO A) (k1 k2 : A -> IO B) :
  (forall a, alike (k1 a) (k2 a)) -> alike (bind m k1) (bind m k2).
Proof.
  intros H w. unfold bind. destruct (m w) as [w' [a|e]].
  - apply H.
  - split; [reflexivity | apply same_but_pictures_refl].
Qed.

Lemma alike_place_picture E1 E2 self (slide : nat) (i : Z) :
  alike (place_picture E1 self slide i) (place_picture E2 self slide i).
Proof.
  intros w.
  destruct (place_picture_ok E1 self slide i w) as [R1 S1].
  destruct (place_picture_ok E2 self slide i w) as [R2 S2].
  split; [congruence|].
  eapply same_but_pictures_trans; [apply same_but_pictures_sym; exact S1 | exact S2].
Qed.

(** Whether an image can be fetched, opened or deleted never decides how the
    rendering of a descriptor ends, and changes nothing of the deck but the
    pictures on its slides: under any two environments [create_slide] ends
    the same way, on decks equal up to pictures, with the same saved decks. *)
Theorem images_never_fail_a_slide E1 E2 self (d : value) (i : Z) :
  alike (create_slide E1 self d i) (create_slide E2 self d i).
Proof.
  unfold create_slide. apply alike_bind. intros slide_type.
  destruct (eq_str slide_type "title"); [apply alike_refl|].
  destruct (eq_str slide_type "summary"); [apply alike_refl|].
  unfold _create_content_slide.
  repeat (apply alike_bind; intros ?).
  apply alike_place_picture.
Qed.

End Images.

(* ================================================================= *)
(** ** Further properties of app.py *)

Module Sections.
Import Py Pptx PPTGenerator App Main Samples More.

Lemma length_range_from (a : Z) (n : nat) : List.length (range_from a n) = n.
Proof. revert a. induction n as [|n IH]; intros a; simpl; [reflexivity | now rewrite IH]. Qed.

Lemma nth_range_from (a : Z) (n j : nat) :
  (j < n)%nat -> nth_error (range_from a n) j = Some (a + Z.of_nat j)%Z.
Proof.
  revert a j. induction n as [|n IH]; intros a [|j] Hj; simpl; try lia.
  - now rewrite Z.add_0_r.
  - rewrite IH by lia. f_equal. lia.
Qed.

Lemma fold_numbered (l : list Z) (stored : list string) :
  fold_left (fun stored i => (stored ++ [numbered i])%list) l stored
  = (stored ++ map numbered l)%list.
Proof.
  revert stored. induction l as [|i l IH]; intros stored; simpl.
  - now rewrite List.app_nil_r.
  - rewrite IH. now rewrite <- List.app_assoc.
Qed.

Lemma length_adjust_sections (stored : list string) (num_sections : Z) :
  (0 <= num_sections)%Z ->
  List.length (adjust_sections stored num_sections) = Z.to_nat num_sections.
Proof.
  intros Hnum. unfold adjust_sections.
  destruct (Z.eqb_spec (Z.of_nat (List.length stored)) num_sections) as [Heq|Hne];
    cbn [negb]; [lia|].
  destruct (Z.ltb_spec (Z.of_nat (List.length stored)) num_sections) as [Hlt|Hge].
  - change (fun (stored0 : list string) (i : Z) =>
              (stored0 ++ [("Section " ++ str_of_int (i + 1))%string])%list)
      with (fun (stored0 : list string) (i : Z) => (stored0 ++ [numbered i])%list).
    rewrite fold_numbered. unfold range.
    rewrite List.length_app, List.length_map, length_range_from. lia.
  - unfold upto, bound.
    destruct (Z.ltb_spec num_sections 0); [lia|].
    rewrite Z.min_l by lia. rewrite List.length_firstn. lia.
Qed.

(** After the adjustment the stored titles are as many as the slider shows;
    those that were there and still fit are unchanged and in place, and each
    added one is named after its position, counted from one. *)
Theorem adjust_sections_fits (stored : list string) (num_sections : Z) :
  (0 <= num_sections)%Z ->
  List.length (adjust_sections stored num_sections) = Z.to_nat num_sections
  /\ (forall j, (j < List.length stored)%nat -> (Z.of_nat j < num_sections)%Z ->
        nth_error (adjust_sections stored num_sections) j = nth_error stored j)
  /\ (forall j, (List.length stored <= j)%nat -> (Z.of_nat j < num_sections)%Z ->
        nth_error (adjust_sections stored num_sections) j
        = Some (numbered (Z.of_nat j))).
Proof.
  intros Hnum. unfold adjust_sections.
  destruct (Z.eqb_spec (Z.of_nat (List.length stored)) num_sections) as [Heq|Hne];
    cbn [negb].
  - repeat split; try lia; intros; lia || reflexivity.
  - destruct (Z.ltb_spec (Z.of_nat (List.length stored)) num_sections) as [Hlt|Hge].
    + change (fun (stored0 : list string) (i : Z) =>
                (stored0 ++ [("Section " ++ str_of_int (i + 1))%string])%list)
        with (fun (stored0 : list string) (i : Z) => (stored0 ++ [numbered i])%list).
      rewrite fold_numbered. unfold range. repeat split.
      * rewrite List.length_app, List.length_map, length_range_from. lia.
      * intros j Hj _. now apply nth_error_app1.
      * intros j Hj Hjn. rewrite nth_error_app2 by exact Hj.
        rewrite nth_error_map, nth_range_from by lia.
        cbn [option_map]. do 2 f_equal. lia.
    + unfold upto, bound.
      destruct (Z.ltb_spec num_sections 0); [lia|].
      rewrite Z.min_l by lia. repeat split.
      * rewrite List.length_firstn. lia.
      * intros j Hj Hjn. rewrite nth_error_firstn.
        destruct (Nat.ltb_spec j (Z.to_nat num_sections)); [reflexivity | lia].
      * intros; lia.
Qed.

Lemma adjust_sections_grows :
  List.length (adjust_sections three 5) = 5%nat
  /\ (forall j, (j < List.length three)%nat -> (Z.of_nat j < 5)%Z ->
        nth_error (adjust_sections three 5) j = nth_error three j)
  /\ (forall j, (List.length three <= j)%nat -> (Z.of_nat j < 5)%Z ->
        nth_error (adjust_sections three 5) j = Some (numbered (Z.of_nat j))).
Proof.
  apply (adjust_sections_fits three 5). lia.
Defined.

Lemma assign_middle {A} (done rest : list A) (x y : A) :
  assign (done ++ x :: rest) (List.length done) y = (done ++ y :: rest)%list.
Proof. induction done as [|z done IH]; simpl; [reflexivity | now rewrite IH]. Qed.

Lemma nth_middle_app {A} (done rest : list A) (x d : A) :
  nth (List.length done) (done ++ x :: rest) d = x.
Proof. induction done as [|z done IH]; simpl; [reflexivity | exact IH]. Qed.

(** The input loop, from the position where [todo] starts. *)
Lemma inputs_from (text_input : Z -> string -> string)
      (todo done collected : list string) :
  fold_left (section_input text_input)
            (range_from (Z.of_nat (List.length done)) (List.length todo))
            ((done ++ todo)%list, collected)
  = ((done ++ entered text_input (Z.of_nat (List.length done)) todo)%list,
     (collected ++ entered text_input (Z.of_nat (List.length done)) todo)%list).
Proof.
  revert done collected. induction todo as [|title todo IH]; intros done collected.
  - simpl. now rewrite !List.app_nil_r.
  - cbn [List.length range_from fold_left section_input entered].
    assert (Hin : (Z.of_nat (List.length done)
                   <? Z.of_nat (List.length (done ++ title :: todo)))%Z = true).
    { apply Z.ltb_lt. rewrite List.length_app. simpl. lia. }
    rewrite Hin, Nat2Z.id, nth_middle_app, assign_middle.
    set (v := text_input (Z.of_nat (List.length done)) title).
    replace (done ++ v :: todo)%list with ((done ++ [v]) ++ todo)%list
      by (now rewrite <- List.app_assoc).
    replace (Z.of_nat (List.length done) + 1)%Z
      with (Z.of_nat (List.length (done ++ [v])))
      by (rewrite List.length_app; simpl; lia).
    rewrite IH. now rewrite <- !List.app_assoc.
Qed.

(** After the section inputs were drawn, the titles [main] works with are
    what the inputs hold for the adjusted stored titles, in order and as
    many as the slider shows, and the session stores exactly these titles;
    the other three session values are untouched. *)
Theorem draw_sections_agree (text_input : Z -> string -> string)
        (num_sections : Z) (s : session) :
  (0 <= num_sections)%Z ->
  let drawn := draw_sections text_input num_sections s in
  snd drawn
  = entered text_input 0 (adjust_sections (content_sections s) num_sections)
  /\ content_sections (fst drawn) = snd drawn
  /\ List.length (snd drawn) = Z.to_nat num_sections
  /\ presentation_generated (fst drawn) = presentation_generated s
  /\ generating (fst drawn) = generating s
  /\ generated_file_path (fst drawn) = generated_file_path s.
Proof.
  intros Hnum. cbv zeta. unfold draw_sections, section_inputs, range.
  pose proof (length_adjust_sections (content_sections s) num_sections Hnum) as Hlen.
  rewrite Z.sub_0_r, <- Hlen.
  pose proof (inputs_from text_input
                (adjust_sections (content_sections s) num_sections) [] []) as H.
  cbn [List.length Z.of_nat List.app] in H. rewrite H. cbn [fst snd content_sections
    presentation_generated generating generated_file_path].
  repeat split.
  clear. generalize 0%Z.
  induction (adjust_sections _ _) as [|t l IH]; intros z; simpl;
    [reflexivity | now rewrite IH].
Qed.

Lemma draw_sections_untouched_inputs :
  let drawn := draw_sections (fun _ title => title) 5 initial_session in
  snd drawn
  = entered (fun _ title => title) 0
            (adjust_sections (content_sections initial_session) 5)
  /\ content_sections (fst drawn) = snd drawn
  /\ List.length (snd drawn) = 5%nat
  /\ presentation_generated (fst drawn) = presentation_generated initial_session
  /\ generating (fst drawn) = generating initial_session
  /\ generated_file_path (fst drawn) = generated_file_path initial_session.
Proof.
  apply (draw_sections_agree (fun _ title => title) 5 initial_session). lia.
Defined.

End Sections.

Module SessionState.
Import Py Pptx PPTGenerator App Main Samples More.






End SessionState.

Module Download.
Import Py Pptx PPTGenerator App Main Samples Deck More Saving.

Lemma files_generate E self topic names (w : world) :
  files (fst (generate_presentation_content E self topic names w)) = files w.
Proof.
  unfold generate_presentation_content, try, lift, bind, print.
  destruct (request_content E self topic names); [reflexivity|].
  cbn [fst]. now destruct (_create_fallback_content self topic names).
Qed.

(** What [create_presentation] returns is the name it was given, when it was
    given one, and a deck was saved under it; files saved before stay; and
    when it raises no file changed. *)
Lemma create_presentation_files E self topic names (out : option string)
      (w : world) :
  match snd (create_presentation E self topic names out w) with
  | Ok path =>
      (forall f, out = Some f -> f <> EmptyString -> path = f)
      /\ saved (files (fst (create_presentation E self topic names out w))) path
         <> None
      /\ forall other, saved (files w) other <> None ->
           saved (files (fst (create_presentation E self topic names out w))) other
           <> None
  | Raise _ =>
      files (fst (create_presentation E self topic names out w)) = files w
  end.
Proof.
  pose proof (files_generate E self topic names w) as Hg.
  remember (create_presentation E self topic names out w) as run eqn:Hrun.
  unfold create_presentation, bind in Hrun.
  destruct (generate_presentation_content E self topic names w) as [w1 [data|e]];
    cbn [fst snd] in *; [|subst run; exact Hg].
  set (name := match out with
               | Some f => if negb (String.eqb f EmptyString) then f else _
               | None => _
               end) in Hrun.
  assert (Hname : forall f, out = Some f -> f <> EmptyString -> name = f).
  { intros f -> Hf. unfold name.
    destruct (String.eqb_spec f EmptyString); [contradiction | reflexivity]. }
  clearbody name.
  destruct (descriptors data) as [items|e] eqn:Hd.
  - rewrite (run_create_powerpoint_over E self data items name w1 Hd) in Hrun.
    destruct (save_file E name) as [[]|e]; subst run;
      cbn [ret fst snd files saved]; [|exact Hg].
    rewrite String.eqb_refl.
    split; [exact Hname|]. split; [discriminate|].
    intros other Ho. destruct (String.eqb name other); [discriminate|].
    now rewrite Hg.
  - rewrite (run_create_powerpoint_stopped E self data e name w1 Hd) in Hrun.
    subst run. cbn [fst snd files]. exact Hg.
Qed.

(** Whenever the session says a presentation was generated, the download
    section has a saved file to offer.  If that holds of the app, it holds
    after a generation, however it ends, and after the Create New
    Presentation button. *)
Theorem download_stays_sound E ts topic sections key model (a : app) :
  download_sound a ->
  download_sound (fst (generate_presentation E ts topic sections key model a))
  /\ download_sound (create_new a).
Proof.
  intros Ha. split; [|intros H; discriminate H].
  unfold generate_presentation.
  pose proof (create_presentation_files E (Generator key model) topic sections
                (Some ("professional_" ++ replace topic " " "_" ++ "_" ++ ts ++ ".pptx"))
                (outside a)) as Hf.
  destruct (create_presentation _ _ _ _ _ _) as [w [path|e]]; cbn [fst snd] in *.
  - intros _. unfold download_offered. cbn [state outside presentation_generated
      generated_file_path].
    destruct Hf as (Hp & Hs & _).
    rewrite (Hp _ eq_refl) in * by discriminate.
    cbn [append String.eqb negb].
    destruct (saved (files w) _); [discriminate | contradiction].
  - intros Hgen. unfold download_sound, download_offered in *.
    cbn [state outside presentation_generated generated_file_path
         set_generating] in *.
    rewrite Hf. exact (Ha Hgen).
Qed.

(** A new session has nothing to download, and what holds of it holds after
    a generation with the endpoint down. *)
Lemma download_sound_offline :
  download_sound
    (fst (generate_presentation offline "20261103_101500" cloud three
            "gsk_0123456789" "llama-3.1-8b-instant"
            (App initial_session fresh [])))
  /\ download_sound (create_new (App initial_session fresh [])).
Proof.
  apply download_stays_sound. intros H. discriminate H.
Defined.

End Download.

Module Names.
Import Py Pptx PPTGenerator App Main Samples Deck Text StrFacts More Saving Download.

Lemma lacks_join (c : ascii) (new : string) (l : list string) :
  lacks c new = true -> Forall (fun p => lacks c p = true) l ->
  lacks c (join new l) = true.
Proof.
  intros Hnew Hl. induction Hl as [|p l Hp Hl IH]; [reflexivity|].
  destruct l as [|q l]; [exact Hp|].
  change (join new (p :: q :: l)) with (p ++ new ++ join new (q :: l)).
  now rewrite !lacks_app, Hp, Hnew, IH.
Qed.

(** Where [find] sees a character first, nothing before is that character. *)
Lemma find_from_first (c : ascii) (s : string) (i : Z) :
  find_from s (String c "") i <> (-1)%Z ->
  exists k, find_from s (String c "") i = (i + Z.of_nat k)%Z
            /\ lacks c (take k s) = true /\ (k < String.length s)%nat.
Proof.
  revert i. induction s as [|x s IH]; intros i; cbn [find_from startswith].
  - intros H. now contradiction H.
  - destruct (Ascii.eqb_spec c x) as [<-|Hcx]; cbn [andb].
    + intros _. exists 0%nat. cbn. split; [lia | split; [reflexivity | lia]].
    + intros H. destruct (IH (i + 1)%Z H) as (k & Hk & Hl & Hlt).
      exists (S k). rewrite Hk. cbn [take lacks String.length].
      rewrite Hl. split; [lia | split; [|lia]].
      destruct (Ascii.eqb_spec c x); [contradiction | reflexivity].
Qed.

Lemma length_drop (n : nat) (s : string) :
  String.length (drop n s) = (String.length s - n)%nat.
Proof.
  revert s. induction n as [|n IH]; intros [|x s]; simpl; try reflexivity.
  apply IH.
Qed.

(** The rounds given to [split] are enough: no piece holds the separator. *)
Lemma pieces_lack (c : ascii) (n : nat) (s : string) :
  (String.length s < n)%nat ->
  Forall (fun p => lacks c p = true) (split_rounds n s (String c "")).
Proof.
  revert s. induction n as [|n IH]; intros s Hn; [lia|].
  cbn [split_rounds].
  destruct (Z.eqb_spec (find s (String c "")) (-1)) as [Hf|Hf].
  - constructor; [|constructor]. apply contains_lacks.
    unfold contains. now rewrite Hf.
  - destruct (find_from_first c s 0 Hf) as (k & Hk & Hl & Hlt).
    fold (find s (String c "")) in Hk. rewrite Hk.
    rewrite Z.add_0_l, Nat2Z.id. constructor; [exact Hl|].
    apply IH. rewrite length_drop. cbn [String.length]. lia.
Qed.

Lemma replace_lacks (c c' : ascii) (s : string) :
  c' <> c -> lacks c (replace s (String c "") (String c' "")) = true.
Proof.
  intros Hc. cbn [replace]. apply lacks_join.
  - cbn. destruct (Ascii.eqb_spec c c'); [congruence | reflexivity].
  - apply pieces_lack. lia.
Qed.

Lemma uint_lacks_space (d : Decimal.uint) :
  lacks " " (NilEmpty.string_of_uint d) = true.
Proof. induction d; cbn [NilEmpty.string_of_uint lacks]; try reflexivity; exact IHd. Qed.

Lemma str_of_int_lacks_space (n : Z) : lacks " " (str_of_int n) = true.
Proof.
  unfold str_of_int, NilZero.string_of_int, NilZero.string_of_uint.
  destruct (Z.to_int n) as [d|d]; destruct d; try reflexivity;
    cbn [lacks Ascii.eqb Bool.eqb negb andb];
    match goal with
    | |- lacks _ (NilEmpty.string_of_uint ?u) = true => apply (uint_lacks_space u)
    end.
Qed.

(** The name [create_presentation] makes up when it is given none has no
    space in it, whatever the topic. *)
Theorem made_up_name_has_no_space E self topic names (w : world) (name : string) :
  snd (create_presentation E self topic names None w) = Ok name ->
  name = "professional_" ++ replace topic " " "_" ++ "_"
         ++ str_of_int (time_time E) ++ ".pptx"
  /\ lacks " " name = true.
Proof.
  intros Hrun.
  assert (Hname : name = "professional_" ++ replace topic " " "_" ++ "_"
                         ++ str_of_int (time_time E) ++ ".pptx").
  { unfold create_presentation, bind in Hrun.
    destruct (generate_presentation_content E self topic names w) as [w1 [data|e]];
      [|discriminate].
    destruct (create_powerpoint E self data _ w1) as [w2 [[]|e]];
      [|discriminate].
    unfold ret in Hrun. cbn [snd] in Hrun. now injection Hrun as <-. }
  split; [exact Hname|]. subst name.
  rewrite !lacks_app, (replace_lacks " " "_"), str_of_int_lacks_space
    by discriminate.
  reflexivity.
Qed.

Lemma made_up_name_cloud :
  "professional_Cloud_Security_1730000000.pptx"
  = "professional_" ++ replace cloud " " "_" ++ "_"
    ++ str_of_int (time_time offline) ++ ".pptx"
  /\ lacks " " "professional_Cloud_Security_1730000000.pptx" = true.
Proof.
  apply (made_up_name_has_no_space offline someone cloud three fresh).
  reflexivity.
Defined.

(** The path [generate_presentation] returns has no space in it either, as
    long as the time stamp has none. *)
Theorem generated_path_has_no_space E ts topic sections key model (a : app)
        (path : string) :
  lacks " " ts = true ->
  snd (generate_presentation E ts topic sections key model a) = Some path ->
  lacks " " path = true.
Proof.
  intros Hts. unfold generate_presentation.
  pose proof (create_presentation_files E (Generator key model) topic sections
                (Some ("professional_" ++ replace topic " " "_" ++ "_" ++ ts ++ ".pptx"))
                (outside a)) as Hf.
  destruct (create_presentation _ _ _ _ _ _) as [w [p|e]]; cbn [fst snd] in *;
    [|discriminate].
  intros [= <-]. destruct Hf as (Hp & _).
  rewrite (Hp _ eq_refl) by discriminate.
  rewrite !lacks_app, (replace_lacks " " "_"), Hts by discriminate.
  reflexivity.
Qed.

Lemma generated_path_cloud :
  lacks " " "professional_Cloud_Security_20261103_101500.pptx" = true.
Proof.
  apply (generated_path_has_no_space offline "20261103_101500" cloud three
           "gsk_0123456789" "llama-3.1-8b-instant" (App initial_session fresh [])).
  - reflexivity.
  - reflexivity.
Defined.

End Names.

(* ================================================================= *)
(** ** What the builders put on a slide *)

Module Slides.
Import Py Pptx PPTGenerator Text Templated Deck Samples Fallback Frame More Saving.

Ltac run_io :=
  cbv [bind add_paragraph read_slide on_shape on_slide on_paragraph ret lift
       raise set_paragraph_text set_shape_text placeholder_count clear
       lone fresh default_presentation add_slide repeat
       set_slides set_deck deck slides slide_width slide_height stdout files
       temps nth_error update List.length List.app Nat.ltb Nat.leb
       sl_placeholders sl_layout sl_fill sl_pictures set_placeholders set_fill
       set_paragraphs set_box set_word_wrap sh_paragraphs sh_left sh_top
       sh_width sh_height sh_word_wrap empty_shape].










(** What a builder does on an empty deck, it does at the end of any deck. *)
Lemma appends_from_fresh {A} (m : IO A) (s : slide) (out left : list string)
      (r : result A) :
  appends 1 m -> m fresh = (leave (lone s out) left, r) ->
  forall w, m w = (leave (put w (slides (deck w) ++ [s])%list out) left, r).
Proof.
  intros (new & o & t & r' & _ & H) Hf w. rewrite (H fresh) in Hf.
  unfold put, leave, fresh, lone in Hf.
  cbn [deck slides stdout files temps default_presentation slide_width
       slide_height List.app] in Hf.
  injection Hf as -> -> -> ->. apply H.
Qed.

Lemma appends_from_fresh_clean {A} (m : IO A) (s : slide) (out : list string)
      (r : result A) :
  appends 1 m -> m fresh = (lone s out, r) ->
  forall w, m w = (put w (slides (deck w) ++ [s])%list out, r).
Proof.
  intros Ha Hf w. rewrite <- (leave_nil (lone s out)) in Hf.
  rewrite (appends_from_fresh m s out [] r Ha Hf w). now rewrite leave_nil.
Qed.



(** The colour lookup fails on the unhashable values, and on these only. *)
Lemma get_background_color_cases self (v : value) :
  if unhashable v
  then get_background_color self v
       = Raise (Exn TypeError ("unhashable type: '" ++ type_name v ++ "'"))
  else exists c, get_background_color self v = Ok c.
Proof. destruct v; cbn [unhashable]; try reflexivity; eexists; reflexivity. Qed.

Lemma background_entry (d : dict) (default : string) :
  unhashable (entry d "background_color" (VStr default)) = unhashable (background d)
  /\ (unhashable (background d) = true ->
      entry d "background_color" (VStr default) = background d).
Proof.
  unfold background, entry.
  destruct (lookup d "background_color"); [now split|]. split; [reflexivity|].
  discriminate.
Qed.

(** A descriptor without [title] on an empty deck: the slide is added and
    painted, and nothing is written on it. *)
Ltac untitled_run self d default :=
  let Ht := fresh "Ht" in
  let Hc := fresh "Hc" in
  let Hu := fresh "Hu" in
  let He := fresh "He" in
  intros Ht; run_io; cbv [paint_background get getitem]; run_io;
  unfold stopped, shade;
  destruct (background_entry d default) as [Hu He]; fold (entry d "background_color" (VStr default));
  pose proof (get_background_color_cases self (entry d "background_color" (VStr default))) as Hc;
  rewrite Hu in Hc;
  destruct (unhashable (background d));
  [ rewrite (He eq_refl) in Hc; rewrite (He eq_refl); rewrite Hc; run_io;
    eexists; eexists; split; [reflexivity|]; split; [now split|]; now split
  | destruct Hc as [c Hc]; rewrite Hc; run_io; rewrite Ht; run_io;
    eexists; eexists; split; [reflexivity|]; split; [now split|];
    split; [reflexivity|]; exists c; now split ].

Lemma untitled_title_on_fresh self (d : dict) :
  lookup d "title" = None ->
  exists s r, _create_title_slide self (VDict d) fresh = (lone s [], r)
              /\ @stopped unit self d "blue" s r.
Proof.
  unfold _create_title_slide.
  change (index slide_layouts 0) with (@Ok nat 2%nat).
  untitled_run self d "blue".
Qed.

Lemma untitled_summary_on_fresh self (d : dict) :
  lookup d "title" = None ->
  exists s r, _create_summary_slide self (VDict d) fresh = (lone s [], r)
              /\ @stopped unit self d "light_blue" s r.
Proof.
  unfold _create_summary_slide.
  change (index slide_layouts 1) with (@Ok nat 2%nat).
  untitled_run self d "light_blue".
Qed.

Lemma untitled_content_on_fresh E self (d : dict) (i : Z) :
  lookup d "title" = None ->
  exists s r, _create_content_slide E self (VDict d) i fresh = (lone s [], r)
              /\ @stopped unit self d "white" s r.
Proof.
  unfold _create_content_slide.
  change (index slide_layouts 1) with (@Ok nat 2%nat).
  untitled_run self d "white".
Qed.

(** The dispatch of [create_slide] on a dict. *)
Lemma create_slide_dispatch E self (d : dict) (i : Z) :
  create_slide E self (VDict d) i
  = if eq_str (entry d "slide_type" (VStr "section")) "title"
    then _create_title_slide self (VDict d)
    else if eq_str (entry d "slide_type" (VStr "section")) "summary"
         then _create_summary_slide self (VDict d)
         else _create_content_slide E self (VDict d) i.
Proof. reflexivity. Qed.







Lemma stopped_anywhere {A} (m : IO A) (s : slide) (r : result A) (w : world) :
  appends 1 m -> m fresh = (lone s [], r) ->
  m w = (put w (slides (deck w) ++ [s])%list [], r).
Proof. intros Ha Hf. exact (appends_from_fresh_clean m s [] r Ha Hf w). Qed.

(** A descriptor that is a dict without [title] never renders: whatever
    its type, [create_slide] raises after it has added one slide to the
    deck, on which nothing is written and no picture placed, and it prints
    nothing and creates no temporary file.  When the background colour is a
    list or a dict, the exception is the [TypeError] of the colour lookup
    and the slide is not yet painted; in every other case it is the
    [KeyError] of the title, and the slide is painted in the colour of the
    descriptor, or in that of its builder's default name. *)
Theorem untitled_descriptor_leaves_an_empty_slide E self (d : dict) (i : Z)
        (w : world) :
  lookup d "title" = None ->
  exists s r,
    create_slide E self (VDict d) i w
    = (put w (slides (deck w) ++ [s])%list [], r)
    /\ sl_placeholders s = [empty_shape; empty_shape] /\ sl_pictures s = []
    /\ if unhashable (background d)
       then r = Raise (Exn TypeError ("unhashable type: '"
                                      ++ type_name (background d) ++ "'"))
            /\ sl_fill s = Solid None
       else r = Raise (Exn KeyError (repr "title"))
            /\ exists c, shade self d (default_shade d) = Ok c
                         /\ sl_fill s = Solid (Some c).
Proof.
  intros Ht. rewrite create_slide_dispatch. unfold default_shade.
  destruct (eq_str _ "title").
  - destruct (untitled_title_on_fresh self d Ht) as (s & r & Hrun & [Hp Hq] & Hr).
    exists s, r. split; [|now repeat split].
    exact (stopped_anywhere _ s r w (appends_title self (VDict d)) Hrun).
  - destruct (eq_str _ "summary").
    + destruct (untitled_summary_on_fresh self d Ht) as (s & r & Hrun & [Hp Hq] & Hr).
      exists s, r. split; [|now repeat split].
      exact (stopped_anywhere _ s r w (appends_summary self (VDict d)) Hrun).
    + destruct (untitled_content_on_fresh E self d i Ht)
        as (s & r & Hrun & [Hp Hq] & Hr).
      exists s, r. split; [|now repeat split].
      exact (stopped_anywhere _ s r w (appends_content E self (VDict d) i) Hrun).
Qed.

(** A summary descriptor with bullets and no title: the [KeyError], on a
    slide painted light blue. *)
Lemma untitled_summary_is_empty :
  exists s r,
    create_slide offline someone
                 (VDict [("slide_type", VStr "summary");
                         ("content", VList [VStr "Next steps"])]) 3 fresh
    = (put fresh ([] ++ [s])%list [], r)
    /\ sl_placeholders s = [empty_shape; empty_shape] /\ sl_pictures s = []
    /\ r = Raise (Exn KeyError (repr "title"))
    /\ exists c,
         shade someone [("slide_type", VStr "summary");
                        ("content", VList [VStr "Next steps"])] "light_blue"
         = Ok c
         /\ sl_fill s = Solid (Some c).
Proof.
  apply (untitled_descriptor_leaves_an_empty_slide offline someone
           [("slide_type", VStr "summary"); ("content", VList [VStr "Next steps"])]
           3 fresh).
  reflexivity.
Defined.















End Slides.
